(** * polish/env/parallel_env.py: the ParallelEnv orchestrator

    A shallow embedding of [ParallelEnv] (construction, [mcts_sample_enable],
    [initialize_episode_data], [initialize_policy_episode_data],
    [process_trajectory_lengths], [play], [aggregate_mcts_data],
    [aggregate_policy_data]) and the properties of its scheduling,
    segmentation and aggregation logic.

    Python objects are mutated in place and an exception leaves the
    mutations done so far: methods are computations in a state-and-exception
    monad over a [world] (the ParallelEnv object, the store of the running
    statistics objects the two games point to, and the log of the calls made
    on the two games). *)

From Stdlib Require Import ZArith Floats Ascii.
From stdpp Require Import gmap strings list fin_maps sorting.

Local Open Scope Z_scope.

(** ** Python values and builtins *)

Module Py.

Inductive exn :=
| IndexError
| ZeroDivisionError
| AttributeError (name : string)
| OverflowError
| ValueError
| TypeError
| IOError.

(** The outcome of evaluating an expression: a value or a raised exception. *)
Inductive outcome (A : Type) :=
| Returned (a : A)
| Raised (e : exn).
Arguments Returned {A} a.
Arguments Raised {A} e.

(** Whether an evaluation returned. *)
Definition returns {A} (o : outcome A) : bool :=
  match o with Returned _ => true | Raised _ => false end.

(** [l[i]]: a negative index counts from the end; out of range raises. *)
Definition index {A} (l : list A) (i : Z) : outcome A :=
  let n := Z.of_nat (length l) in
  let j := if i <? 0 then n + i else i in
  if (0 <=? j) && (j <? n)
  then match l !! Z.to_nat j with
       | Some x => Returned x
       | None => Raised IndexError
       end
  else Raised IndexError.

(** [sum(l)] on Python ints. *)
Definition sum (l : list Z) : Z := foldr Z.add 0 l.

(** [range(n)]: empty when [n <= 0]. *)
Definition range (n : Z) : list Z := seqZ 0 n.

(** [a % b] on Python ints: the sign follows the divisor, as [Z.modulo]. *)
Definition mod_ (a b : Z) : outcome Z :=
  if b =? 0 then Raised ZeroDivisionError else Returned (a mod b).

(** [int(math.ceil(float(a) / b))] for Python ints [a], [b]; the float
    quotient is exact enough for its ceiling while [|a|, |b| < 2^53]
    (far above any step budget), and the embedding computes on integers. *)
Definition ceil_div (a b : Z) : outcome Z :=
  if b =? 0 then Raised ZeroDivisionError else Returned (- ((- a) / b)).

(** [float(n)] of a Python int: round to nearest binary64;
    a too large int raises OverflowError. *)
Definition float_of_int (n : Z) : outcome float :=
  match binary_normalize prec emax n 0 false with
  | S754_infinity _ => Raised OverflowError
  | sf => Returned (SF2Prim sf)
  end.

(** [int(x)] of a Python float: truncation toward zero. *)
Definition int_of_float (x : float) : outcome Z :=
  match Prim2SF x with
  | S754_zero _ => Returned 0
  | S754_finite s m e =>
      let mag := if 0 <=? e then Z.pos m * 2 ^ e else Z.pos m / 2 ^ (- e) in
      Returned (if s then - mag else mag)
  | S754_infinity _ => Raised OverflowError
  | S754_nan => Raised ValueError
  end.

(** [round(x)] of a Python float: the nearest int, a tie going to the
    even one. *)
Definition round_ (x : float) : outcome Z :=
  match Prim2SF x with
  | S754_zero _ => Returned 0
  | S754_finite s m e =>
      let mag :=
        if 0 <=? e then Z.pos m * 2 ^ e
        else
          let d := 2 ^ (- e) in
          let q := Z.pos m / d in
          let r := Z.pos m mod d in
          if 2 * r <? d then q
          else if d <? 2 * r then q + 1
          else if Z.even q then q else q + 1 in
      Returned (if s then - mag else mag)
  | S754_infinity _ => Raised OverflowError
  | S754_nan => Raised ValueError
  end.

(** [x * n] for a float [x] and an int [n]: [n] is converted first. *)
Definition float_mul_int (x : float) (n : Z) : outcome float :=
  match float_of_int n with
  | Returned y => Returned (PrimFloat.mul x y)
  | Raised e => Raised e
  end.

(** [int(l)] on a value that is an int already. *)
Definition int (l : Z) : Z := l.

(** [s.split(sep, 1)[1]]: what follows the first [sep] in [s]. *)
Fixpoint split1_tail (sep : Ascii.ascii) (s : string) : outcome string :=
  match s with
  | EmptyString => Raised IndexError
  | String c rest =>
      if Ascii.eqb c sep then Returned rest else split1_tail sep rest
  end.

End Py.

Import Py.

(** ** The part of numpy the class uses *)

Module Np.

Inductive dtype := bool_ | uint8 | int32 | int64 | float32 | float64.

#[global] Instance dtype_eq_dec : EqDecision dtype.
Proof. solve_decision. Defined.

(** [np.result_type(a, b)] restricted to the dtypes above. *)
Definition result_type (a b : dtype) : dtype :=
  match a, b with
  | bool_, t | t, bool_ => t
  | float64, _ | _, float64 => float64
  | float32, (int32 | int64) | (int32 | int64), float32 => float64
  | float32, _ | _, float32 => float32
  | int64, _ | _, int64 => int64
  | int32, _ | _, int32 => int32
  | uint8, uint8 => uint8
  end.

Section Arrays.

(** An array element (an observation row, an action, a scalar) is opaque;
    [cast t x] is numpy's conversion of one element to dtype [t], and
    [infer xs] the dtype [np.asarray] picks for a Python list when it is
    given none. *)
Context {elt : Type}.
Variable cast : dtype -> elt -> elt.
Variable infer : list elt -> dtype.

(** A sequence attribute: a Python list or an ndarray (first axis only). *)
Inductive pyval :=
| PyList (xs : list elt)
| NdArray (t : dtype) (xs : list elt).

Definition items (v : pyval) : list elt :=
  match v with PyList xs | NdArray _ xs => xs end.

(** [len(v)] *)
Definition len (v : pyval) : Z := Z.of_nat (length (items v)).

(** The dtype of [np.asarray(v)]. *)
Definition dtype_of (v : pyval) : dtype :=
  match v with PyList xs => infer xs | NdArray t _ => t end.

(** [np.asarray(v, dtype=t)] *)
Definition asarray (v : pyval) (t : dtype) : pyval :=
  NdArray t (cast t <$> items v).

(** [np.concatenate((a, b), axis=0)]: both operands are converted to
    arrays, the result has the promoted dtype. *)
Definition concatenate (a b : pyval) : pyval :=
  let t := result_type (dtype_of a) (dtype_of b) in
  NdArray t ((cast t <$> items a) ++ (cast t <$> items b)).

End Arrays.

Arguments pyval elt : clear implicits.

End Np.

Import Np.

(** ** The Rollout Source (polish.env.env.MCTSEnv), at its interface

    The class lives outside this file; it is used through the attributes
    and methods below. Its methods act on the game object and on the
    running-statistics objects it points to. *)

(** A running mean/variance object ([_ob_rms], [_ret_rms]). *)
Record running_stat (stat : Type) := RunningStat {
  _mean : stat;
  _var : stat;
  _count : stat;
}.
Arguments RunningStat {stat} _ _ _.
Arguments _mean {stat} _.
Arguments _var {stat} _.
Arguments _count {stat} _.

(** The content of the pickled file [norm] in the checkpoint directory. *)
Record norm_file (stat : Type) := NormFile {
  norm_obs : running_stat stat;
  norm_ret : running_stat stat;
}.
Arguments NormFile {stat} _ _.
Arguments norm_obs {stat} _.
Arguments norm_ret {stat} _.

(** A game object: its rollout buffer, the simulator snapshots, the
    references to its two running-statistics objects, and the rest of its
    state ([hidden]: simulator, estimator, search tree). *)
Record MCTSEnv (elt env_state sim : Type) := Game {
  observation_dtype : dtype;
  trajectory_states : pyval elt;
  trajectory_actions : pyval elt;
  trajectory_values : pyval elt;
  trajectory_neg_logprobs : pyval elt;
  trajectory_means : pyval elt;
  trajectory_logstds : pyval elt;
  trajectory_per_episode_rewards : pyval elt;
  trajectory_per_episode_lengths : list Z;
  trajectory_dones : list bool;
  trajectory_per_step_rewards : pyval elt;
  trajectory_returns : pyval elt;
  env_states : list env_state;
  _ob_rms : positive;
  _ret_rms : positive;
  hidden : sim;
}.
Arguments Game {elt env_state sim}.
Arguments observation_dtype {elt env_state sim} _.
Arguments trajectory_states {elt env_state sim} _.
Arguments trajectory_actions {elt env_state sim} _.
Arguments trajectory_values {elt env_state sim} _.
Arguments trajectory_neg_logprobs {elt env_state sim} _.
Arguments trajectory_means {elt env_state sim} _.
Arguments trajectory_logstds {elt env_state sim} _.
Arguments trajectory_per_episode_rewards {elt env_state sim} _.
Arguments trajectory_per_episode_lengths {elt env_state sim} _.
Arguments trajectory_dones {elt env_state sim} _.
Arguments trajectory_per_step_rewards {elt env_state sim} _.
Arguments trajectory_returns {elt env_state sim} _.
Arguments env_states {elt env_state sim} _.
Arguments _ob_rms {elt env_state sim} _.
Arguments _ret_rms {elt env_state sim} _.
Arguments hidden {elt env_state sim} _.

(** What [ParallelEnv.__init__] passes on to the MCTSEnv constructor;
    [rollout_args] stands for env, estimator, serving_input_fn, gamma, lam
    and the clipping and normalization options. *)
Record game_args (rollout : Type) := GameArgs {
  rollout_args : rollout;
  ga_mcts_enable : bool;
  ga_num_envs : Z;
  ga_mcts_start_step_frac : float;
  ga_mcts_end_step_frac : float;
  ga_num_iterations : Z;
  ga_mcts_sim_decay_factor : float;
  ga_mcts_sampling_frac : float;
  ga_mcts_collect_data_freq : Z;
  ga_random_action_sampling_freq : float;
  ga_checkpoint_dir : option string;
}.
Arguments GameArgs {rollout}.

(** The collaborators: numpy's element conversions, the MCTSEnv methods
    and the checkpoint reader. A method maps the store of statistics
    objects and the game to their values after the call. *)
Class Source := {
  elt : Type;
  env_state : Type;
  sim : Type;
  stat : Type;
  rollout : Type;
  cast : dtype -> elt -> elt;
  infer : list elt -> dtype;
  elt_of_bool : bool -> elt;
  elt_of_int : Z -> elt;
  game := MCTSEnv elt env_state sim;
  store := gmap positive (running_stat stat);
  MCTSEnv_new : game_args rollout -> store -> outcome (store * game);
  prepare_mcts_player : store -> game -> store * game;
  update_estimator : bool -> store -> game -> store * game;
  reset : store -> game -> store * game;
  game_initialize_episode_data : store -> game -> store * game;
  run_trajectory : Z -> store -> game -> store * game;
  mcts_initialization : env_state -> elt -> store -> game -> store * game;
  run_mcts_trajectory : Z -> store -> game -> store * game;
  load_norm : string -> outcome (norm_file stat);
}.

(** ** The ParallelEnv object and the world it runs in *)

Section Orchestrator.

Context `{Source}.

(** The constructor's arguments. *)
Record config := Config {
  cfg_rollout_args : rollout;
  cfg_len_segment : Z;
  cfg_mcts_enable : bool;
  cfg_num_envs : Z;
  cfg_mcts_start_step_frac : float;
  cfg_mcts_end_step_frac : float;
  cfg_num_iterations : Z;
  cfg_mcts_sim_decay_factor : float;
  cfg_mcts_sampling_frac : float;
  cfg_mcts_collect_data_freq : Z;
  cfg_random_action_sampling_freq : float;
  cfg_checkpoint_dir : option string;
  cfg_update_rms : bool;
}.

(** The object's attributes. The eleven [trajectory_*] and the six
    [policy_trajectory_*] attributes are read and written by name
    ([getattr]/[setattr]) and live in [data]. *)
Record ParallelEnv := Obj {
  len_segment : Z;
  sampling_step : Z;
  mcts_start_step : Z;
  mcts_end_step : Z;
  mcts_enable : bool;
  mcts_sampling : bool;
  mcts_collect_data_freq : Z;
  checkpoint_dir : option string;
  first_mcts : bool;
  data : gmap string (pyval elt);
  master_game : game;
  mcts_game : game;
}.

Definition set_sampling_step (v : Z) (o : ParallelEnv) : ParallelEnv :=
  Obj (len_segment o) v (mcts_start_step o) (mcts_end_step o) (mcts_enable o)
      (mcts_sampling o) (mcts_collect_data_freq o) (checkpoint_dir o)
      (first_mcts o) (data o) (master_game o) (mcts_game o).

Definition set_mcts_sampling (v : bool) (o : ParallelEnv) : ParallelEnv :=
  Obj (len_segment o) (sampling_step o) (mcts_start_step o) (mcts_end_step o)
      (mcts_enable o) v (mcts_collect_data_freq o) (checkpoint_dir o)
      (first_mcts o) (data o) (master_game o) (mcts_game o).

Definition set_first_mcts (v : bool) (o : ParallelEnv) : ParallelEnv :=
  Obj (len_segment o) (sampling_step o) (mcts_start_step o) (mcts_end_step o)
      (mcts_enable o) (mcts_sampling o) (mcts_collect_data_freq o)
      (checkpoint_dir o) v (data o) (master_game o) (mcts_game o).

Definition set_data (v : gmap string (pyval elt)) (o : ParallelEnv)
  : ParallelEnv :=
  Obj (len_segment o) (sampling_step o) (mcts_start_step o) (mcts_end_step o)
      (mcts_enable o) (mcts_sampling o) (mcts_collect_data_freq o)
      (checkpoint_dir o) (first_mcts o) v (master_game o) (mcts_game o).

Definition set_master_game (v : game) (o : ParallelEnv) : ParallelEnv :=
  Obj (len_segment o) (sampling_step o) (mcts_start_step o) (mcts_end_step o)
      (mcts_enable o) (mcts_sampling o) (mcts_collect_data_freq o)
      (checkpoint_dir o) (first_mcts o) (data o) v (mcts_game o).

Definition set_mcts_game (v : game) (o : ParallelEnv) : ParallelEnv :=
  Obj (len_segment o) (sampling_step o) (mcts_start_step o) (mcts_end_step o)
      (mcts_enable o) (mcts_sampling o) (mcts_collect_data_freq o)
      (checkpoint_dir o) (first_mcts o) (data o) (master_game o) v.

(** Which of the two games a logged call went to. *)
Inductive which := Master | Mcts.

(** What [play] does to the two games, in order. *)
Inductive call :=
| UpdateEstimator (g : which) (test_mode : bool)
| ResetGame (g : which)
| InitializeEpisodeData (g : which)
| RunTrajectory (max_steps : Z)
| RebindStats (ob_rms ret_rms : positive)
| MctsInitialization (index : Z)
| RunMctsTrajectory (max_horizon : Z).

Record world := World {
  self : ParallelEnv;
  rms : store;
  calls : list call;
}.

(** *** The state-and-exception monad *)

Definition M (A : Type) : Type := world -> outcome A * world.

#[global] Instance M_ret : MRet M := fun A a w => (Returned a, w).

#[global] Instance M_bind : MBind M := fun A B f m w =>
  match m w with
  | (Returned a, w') => f a w'
  | (Raised e, w') => (Raised e, w')
  end.

#[global] Instance outcome_ret : MRet outcome := fun A a => Returned a.

#[global] Instance outcome_bind : MBind outcome := fun A B f m =>
  match m with
  | Returned a => f a
  | Raised e => Raised e
  end.

(** Read an attribute of [self]. *)
Definition gets {A} (f : ParallelEnv -> A) : M A :=
  fun w => (Returned (f (self w)), w).

(** Assign attributes of [self]. *)
Definition modify (f : ParallelEnv -> ParallelEnv) : M unit :=
  fun w => (Returned tt, World (f (self w)) (rms w) (calls w)).

(** Evaluate an expression that may raise. *)
Definition lift {A} (o : outcome A) : M A := fun w => (o, w).

Definition log (c : call) : M unit :=
  fun w => (Returned tt, World (self w) (rms w) (calls w ++ [c])).

(** Call a method of [self.master_game] / [self.mcts_game]. *)
Definition call_master (c : call) (method : store -> game -> store * game)
  : M unit :=
  fun w =>
    let '(s, g) := method (rms w) (master_game (self w)) in
    (Returned tt, World (set_master_game g (self w)) s (calls w ++ [c])).

Definition call_mcts (c : call) (method : store -> game -> store * game)
  : M unit :=
  fun w =>
    let '(s, g) := method (rms w) (mcts_game (self w)) in
    (Returned tt, World (set_mcts_game g (self w)) s (calls w ++ [c])).

(** [for x in xs: body] *)
Fixpoint for_ {X} (xs : list X) (body : X -> M unit) : M unit :=
  match xs with
  | [] => mret tt
  | x :: rest => body x ;; for_ rest body
  end.

(** [getattr(self, name)] and [setattr(self, name, v)] on the data
    attributes. *)
Definition getattr (name : string) : M (pyval elt) :=
  fun w =>
    match data (self w) !! name with
    | Some v => (Returned v, w)
    | None => (Raised (AttributeError name), w)
    end.

Definition setattr (name : string) (v : pyval elt) : M unit :=
  modify (fun o => set_data (<[name := v]> (data o)) o).

(** [getattr(game, name)] on a game's rollout buffer. *)
Definition game_getattr (g : game) (name : string) : outcome (pyval elt) :=
  if String.eqb name "trajectory_states" then Returned (trajectory_states g)
  else if String.eqb name "trajectory_actions"
  then Returned (trajectory_actions g)
  else if String.eqb name "trajectory_values"
  then Returned (trajectory_values g)
  else if String.eqb name "trajectory_neg_logprobs"
  then Returned (trajectory_neg_logprobs g)
  else if String.eqb name "trajectory_means" then Returned (trajectory_means g)
  else if String.eqb name "trajectory_logstds"
  then Returned (trajectory_logstds g)
  else if String.eqb name "trajectory_per_episode_rewards"
  then Returned (trajectory_per_episode_rewards g)
  else if String.eqb name "trajectory_per_episode_lengths"
  then Returned (PyList (elt_of_int <$> trajectory_per_episode_lengths g))
  else if String.eqb name "trajectory_dones"
  then Returned (PyList (elt_of_bool <$> trajectory_dones g))
  else if String.eqb name "trajectory_per_step_rewards"
  then Returned (trajectory_per_step_rewards g)
  else if String.eqb name "trajectory_returns"
  then Returned (trajectory_returns g)
  else Raised (AttributeError name).

(** ** The methods of ParallelEnv *)

Definition episode_attrs : list string :=
  ["trajectory_states"; "trajectory_actions"; "trajectory_values";
   "trajectory_neg_logprobs"; "trajectory_means"; "trajectory_logstds";
   "trajectory_per_episode_rewards"; "trajectory_per_episode_lengths";
   "trajectory_dones"; "trajectory_per_step_rewards"; "trajectory_returns"].

Definition policy_attrs : list string :=
  ["policy_trajectory_states"; "policy_trajectory_values";
   "policy_trajectory_actions"; "policy_trajectory_returns";
   "policy_trajectory_neg_logprobs"; "policy_trajectory_per_step_rewards"].

(** [self.<name> = []] for each of [names], in order. *)
Definition clear_attrs (names : list string) (d : gmap string (pyval elt))
  : gmap string (pyval elt) :=
  foldl (fun d name => <[name := PyList []]> d) d names.

Definition initialize_episode_data : M unit :=
  modify (fun o => set_data (clear_attrs episode_attrs (data o)) o).

Definition initialize_policy_episode_data : M unit :=
  modify (fun o => set_data (clear_attrs policy_attrs (data o)) o).

Definition mcts_sample_enable (o : ParallelEnv) : bool :=
  mcts_enable o
  && (mcts_start_step o <=? sampling_step o)
  && (sampling_step o <? mcts_end_step o).

Definition process_trajectory_lengths (g : game) (max_steps : Z)
  : outcome (list Z) :=
  last_done ← index (trajectory_dones g) (-1);
  let len_trajectories :=
    if (last_done : bool) then trajectory_per_episode_lengths g
    else if 0 <? Z.of_nat (length (trajectory_per_episode_lengths g))
    then trajectory_per_episode_lengths g
         ++ [max_steps - sum (trajectory_per_episode_lengths g)]
    else [max_steps] in
  mret (int <$> len_trajectories).

(** The name-to-type table of [aggregate_mcts_data]; [obs] is
    [self.master_game.env.observation_space.dtype]. *)
Definition data_attr_types (obs : dtype) : list (string * dtype) :=
  [("trajectory_states", obs);
   ("trajectory_actions", float32);
   ("trajectory_values", float32);
   ("trajectory_neg_logprobs", float32);
   ("trajectory_means", float32);
   ("trajectory_logstds", float32);
   ("trajectory_per_episode_rewards", float32);
   ("trajectory_per_episode_lengths", float32);
   ("trajectory_dones", bool_);
   ("trajectory_per_step_rewards", float32);
   ("trajectory_returns", float32)].

(** One turn of the loop of [aggregate_mcts_data]. *)
Definition aggregate_mcts_attr (item : string * dtype) : M unit :=
  let '(data_attr, data_type) := item in
  sampling ← gets mcts_sampling;
  new_attr_val ←
    (if (sampling : bool) then
       old_attr_val ← getattr data_attr;
       g ← gets mcts_game;
       mcts_attr_val ← lift (game_getattr g data_attr);
       if 0 <? len old_attr_val
       then mret (concatenate cast infer old_attr_val mcts_attr_val)
       else mret (asarray cast mcts_attr_val data_type)
     else
       g ← gets master_game;
       v ← lift (game_getattr g data_attr);
       mret (asarray cast v data_type));
  setattr data_attr new_attr_val.

Definition aggregate_mcts_data : M unit :=
  obs ← gets (fun o => observation_dtype (master_game o));
  for_ (data_attr_types obs) aggregate_mcts_attr.

(** The name-to-type table of [aggregate_policy_data]. *)
Definition policy_data_attr_types (obs : dtype) : list (string * dtype) :=
  [("policy_trajectory_states", obs);
   ("policy_trajectory_actions", float32);
   ("policy_trajectory_values", float32);
   ("policy_trajectory_neg_logprobs", float32);
   ("policy_trajectory_per_step_rewards", float32);
   ("policy_trajectory_returns", float32)].

Definition aggregate_policy_attr (item : string * dtype) : M unit :=
  let '(data_attr, data_type) := item in
  master_data_attr ← lift (split1_tail ("_" : Ascii.ascii) data_attr);
  g ← gets master_game;
  v ← lift (game_getattr g master_data_attr);
  setattr data_attr (asarray cast v data_type).

Definition aggregate_policy_data : M unit :=
  obs ← gets (fun o => observation_dtype (master_game o));
  for_ (policy_data_attr_types obs) aggregate_policy_attr.

(** [game._ob_rms = ob; game._ret_rms = ret] *)
Definition rebind_stats (ob ret : positive) (g : game) : game :=
  Game (observation_dtype g) (trajectory_states g) (trajectory_actions g)
       (trajectory_values g) (trajectory_neg_logprobs g) (trajectory_means g)
       (trajectory_logstds g) (trajectory_per_episode_rewards g)
       (trajectory_per_episode_lengths g) (trajectory_dones g)
       (trajectory_per_step_rewards g) (trajectory_returns g) (env_states g)
       ob ret (hidden g).

(** The body of [for i in range(num_inits)] in [play]. *)
Definition rollout_from
    (base_len init_state_interval last_state_interval num_inits : Z) (i : Z)
  : M unit :=
  master ← gets master_game;
  init_state ← lift (index (env_states master)
                           (base_len + init_state_interval * i));
  master ← gets master_game;
  init_action ← lift (index (items (trajectory_actions master))
                            (base_len + init_state_interval * i));
  call_mcts (MctsInitialization (base_len + init_state_interval * i))
            (mcts_initialization init_state init_action) ;;
  call_mcts (InitializeEpisodeData Mcts) game_initialize_episode_data ;;
  (if i <? num_inits - 1
   then call_mcts (RunMctsTrajectory init_state_interval)
                  (run_mcts_trajectory init_state_interval)
   else call_mcts (RunMctsTrajectory last_state_interval)
                  (run_mcts_trajectory last_state_interval)) ;;
  aggregate_mcts_data.

(** One turn of [for len_trajectory in len_trajectories], up to the update
    of [base_len]. *)
Definition segment_rollouts (base_len len_trajectory : Z) : M unit :=
  len_seg ← gets len_segment;
  num_inits ← lift (ceil_div len_trajectory len_seg);
  init_state_interval ← gets len_segment;
  let last_state_interval :=
    len_trajectory - (num_inits - 1) * init_state_interval in
  for_ (range num_inits)
       (rollout_from base_len init_state_interval last_state_interval
                     num_inits).

(** [for len_trajectory in len_trajectories], with the local [base_len]. *)
Fixpoint rollouts (base_len : Z) (len_trajectories : list Z) : M unit :=
  match len_trajectories with
  | [] => mret tt
  | len_trajectory :: rest =>
      segment_rollouts base_len len_trajectory ;;
      rollouts (base_len + len_trajectory) rest
  end.

(** The first statements of [play]: the primary rollout. *)
Definition run_primary (max_steps : Z) (test_mode : bool) : M unit :=
  call_master (UpdateEstimator Master test_mode) (update_estimator test_mode) ;;
  call_master (ResetGame Master) reset ;;
  call_master (InitializeEpisodeData Master) game_initialize_episode_data ;;
  call_master (RunTrajectory max_steps) (run_trajectory max_steps).

(** The [if first_mcts] block: the search game's statistics are rebound to
    the primary game's objects. *)
Definition hand_off : M unit :=
  first ← gets first_mcts;
  if (first : bool) then
    master ← gets master_game;
    modify (fun o => set_mcts_game
              (rebind_stats (_ob_rms master) (_ret_rms master) (mcts_game o))
              o) ;;
    log (RebindStats (_ob_rms master) (_ret_rms master)) ;;
    modify (set_first_mcts false)
  else mret tt.

(** The block under the frequency gate. *)
Definition search_sampling (max_steps : Z) (test_mode : bool) : M unit :=
  initialize_episode_data ;;
  initialize_policy_episode_data ;;
  modify (set_mcts_sampling true) ;;
  call_mcts (UpdateEstimator Mcts test_mode) (update_estimator test_mode) ;;
  master ← gets master_game;
  len_trajectories ← lift (process_trajectory_lengths master max_steps);
  rollouts 0 len_trajectories ;;
  aggregate_policy_data.

(** The block of [if not self.mcts_sample_enable()]. *)
Definition policy_sampling : M unit :=
  initialize_episode_data ;;
  initialize_policy_episode_data ;;
  modify (set_mcts_sampling false) ;;
  aggregate_mcts_data ;;
  aggregate_policy_data.

(** [(self.sampling_step - self.mcts_start_step)
     % self.mcts_collect_data_freq] *)
Definition phase_of (o : ParallelEnv) : outcome Z :=
  mod_ (sampling_step o - mcts_start_step o) (mcts_collect_data_freq o).

Definition phase : M Z :=
  step ← gets sampling_step;
  start ← gets mcts_start_step;
  freq ← gets mcts_collect_data_freq;
  lift (mod_ (step - start) freq).

Definition play (max_steps : Z) (test_mode : bool) : M unit :=
  run_primary max_steps test_mode ;;
  enabled ← gets mcts_sample_enable;
  (if negb enabled then policy_sampling
   else
     hand_off ;;
     r ← phase;
     if r =? 0 then search_sampling max_steps test_mode else mret tt) ;;
  step ← gets sampling_step;
  modify (set_sampling_step (step + 1)).

(** The arguments [__init__] hands to the MCTSEnv constructor. *)
Definition game_args_of (cfg : config) : game_args rollout :=
  GameArgs (cfg_rollout_args cfg) (cfg_mcts_enable cfg) (cfg_num_envs cfg)
           (cfg_mcts_start_step_frac cfg) (cfg_mcts_end_step_frac cfg)
           (cfg_num_iterations cfg) (cfg_mcts_sim_decay_factor cfg)
           (cfg_mcts_sampling_frac cfg) (cfg_mcts_collect_data_freq cfg)
           (cfg_random_action_sampling_freq cfg) (cfg_checkpoint_dir cfg).

(** [ParallelEnv(...)]: the world after construction, from the store of
    statistics objects before it. An exception leaves no object. *)
Definition __init__ (cfg : config) (s0 : store) : outcome world :=
  let data0 := clear_attrs policy_attrs (clear_attrs episode_attrs ∅) in
  start_f ← float_mul_int (cfg_mcts_start_step_frac cfg)
                          (cfg_num_iterations cfg);
  start ← int_of_float start_f;
  end_f ← float_mul_int (cfg_mcts_end_step_frac cfg) (cfg_num_iterations cfg);
  end_ ← int_of_float end_f;
  let args := game_args_of cfg in
  made ← MCTSEnv_new args s0;
  let '(s1, master) := made in
  s2 ← (if cfg_update_rms cfg then
          dir ← match cfg_checkpoint_dir cfg with
                | Some d => Returned d
                | None => Raised TypeError
                end;
          norm ← load_norm dir;
          mret (<[_ret_rms master := norm_ret norm]>
                  (<[_ob_rms master := norm_obs norm]> s1))
        else mret s1);
  made ← MCTSEnv_new args s2;
  let '(s3, g) := made in
  let '(s4, mcts) := prepare_mcts_player s3 g in
  mret (World (Obj (cfg_len_segment cfg) 0 start end_ (cfg_mcts_enable cfg)
                   false (cfg_mcts_collect_data_freq cfg)
                   (cfg_checkpoint_dir cfg) true data0 master mcts)
              s4 []).

(** ** Running the methods, and reading the call log *)

(** The world a call leaves, whether it returned or raised. *)
Definition exec {A} (m : M A) (w : world) : world := (m w).2.

(** A computation leaves an observation of the world as it was. *)
Definition preserves {A B} (f : world -> B) (m : M A) : Prop :=
  forall w, f (exec m w) = f w.

(** What [aggregate_mcts_data] stores in search mode for an attribute of
    type [T] that held [old], when the search game holds [v]. *)
Definition merge (T : dtype) (old v : pyval elt) : pyval elt :=
  if 0 <? len old then concatenate cast infer old v else asarray cast v T.

(** The policy attributes in [d] mirror the game [primary]: each is the
    attribute of [primary] it is named after (the name without its first
    prefix), converted to its type in the table. *)
Definition policy_refreshed (primary : game) (d : gmap string (pyval elt))
  : Prop :=
  forall name T,
    (name, T) ∈ policy_data_attr_types (observation_dtype primary) ->
    exists src v,
      split1_tail "_" name = Returned src
      /\ game_getattr primary src = Returned v
      /\ d !! name = Some (asarray cast v T).

(** The world with the data attributes replaced. *)
Definition with_data (d : gmap string (pyval elt)) (w : world) : world :=
  World (set_data d (self w)) (rms w) (calls w).

(** A sequence of [play] calls, each given as [(max_steps, test_mode)]. *)
Definition play_with (a : Z * bool) : M unit := play a.1 a.2.

(** The worlds at the start of each call of the sequence. *)
Fixpoint starts (args : list (Z * bool)) (w : world) : list world :=
  match args with
  | [] => []
  | a :: rest => w :: starts rest (exec (play_with a) w)
  end.

(** The world after the whole sequence. *)
Definition run_plays (args : list (Z * bool)) (w : world) : world :=
  foldl (fun w a => exec (play_with a) w) w args.

(** Worlds reachable by [play] calls. *)
Inductive plays_to (w : world) : world -> Prop :=
| plays_none : plays_to w w
| plays_more w' max_steps test_mode :
    plays_to w w' -> plays_to w (exec (play max_steps test_mode) w').

(** The horizons of the search rollouts in a log, in order. *)
Definition horizons_of (cs : list call) : list Z :=
  omap (fun c => match c with
                 | RunMctsTrajectory h => Some h
                 | _ => None
                 end) cs.

(** The indices of the primary rollout that search rollouts started from. *)
Definition init_indices (cs : list call) : list Z :=
  omap (fun c => match c with
                 | MctsInitialization i => Some i
                 | _ => None
                 end) cs.

(** The hand-offs in a log. *)
Definition hand_offs (cs : list call) : list (positive * positive) :=
  omap (fun c => match c with
                 | RebindStats ob ret => Some (ob, ret)
                 | _ => None
                 end) cs.

(** The calls a computation adds to the log. *)
Definition new_calls {A} (m : M A) (w : world) : list call :=
  drop (length (calls w)) (calls (exec m w)).

(** Every data attribute of [names] exists on the object. *)
Definition attrs_bound (names : list string) (o : ParallelEnv) : Prop :=
  Forall (fun name => is_Some (data o !! name)) names.

(** [aggregate_mcts_data] called once after each of the search buffers
    [bs], the search game holding that buffer at the call. *)
Definition aggregate_after (bs : list game) : M unit :=
  for_ bs (fun b => modify (set_mcts_game b) ;; aggregate_mcts_data).

(** The attribute [name] of each buffer, in order. *)
Definition attr_of_each (name : string) (bs : list game)
  : list (pyval elt) :=
  omap (fun b => match game_getattr b name with
                 | Returned v => Some v
                 | Raised _ => None
                 end) bs.

(** ** Counting, well-formed rollouts and what a method may raise *)

(** How many calls of a sequence returned. *)
Fixpoint completed (args : list (Z * bool)) (w : world) : Z :=
  match args with
  | [] => 0
  | a :: rest =>
      (if returns (play_with a w).1 then 1 else 0)
      + completed rest (exec (play_with a) w)
  end.






End Orchestrator.

(** ** A concrete source, to run the orchestrator on examples

    Scalars are Python bools, ints and floats; a float here holds a small
    integral value, which binary32 and binary64 both represent, so the
    conversions between float types keep it. The simulator is
    deterministic: an episode lasts four steps, and the values of a rollout
    are numbered from a counter that [reset] advances. *)

Module Sample.

Inductive scalar :=
| PyBool (b : bool)
| PyInt (n : Z)
| PyFloat (n : Z).

Definition value (x : scalar) : Z :=
  match x with
  | PyBool b => if b then 1 else 0
  | PyInt n | PyFloat n => n
  end.

Definition cast (t : dtype) (x : scalar) : scalar :=
  match t with
  | bool_ => PyBool (negb (value x =? 0))
  | uint8 | int32 | int64 => PyInt (value x)
  | float32 | float64 => PyFloat (value x)
  end.

Definition is_float (x : scalar) : bool :=
  match x with PyFloat _ => true | _ => false end.

Definition is_int (x : scalar) : bool :=
  match x with PyInt _ => true | _ => false end.

(** The dtype numpy gives a Python list: float64 for floats and for the
    empty list, the default int for ints, bool for bools. *)
Definition infer (xs : list scalar) : dtype :=
  match xs with
  | [] => float64
  | _ => if existsb is_float xs then float64
         else if existsb is_int xs then int64 else bool_
  end.

Definition floats (ns : list Z) : pyval scalar := PyList (PyFloat <$> ns).

Definition sample_game := MCTSEnv scalar Z Z.
Definition sample_store := gmap positive (running_stat Z).

(** A game with an empty buffer. *)
Definition blank (ob ret : positive) (counter : Z) : sample_game :=
  Game float32 (PyList []) (PyList []) (PyList []) (PyList []) (PyList [])
       (PyList []) (PyList []) [] [] (PyList []) (PyList []) [] ob ret counter.

Definition new (args : game_args unit) (s : sample_store)
  : outcome (sample_store * sample_game) :=
  let ob := Pos.of_succ_nat (size s) in
  let ret := Pos.succ ob in
  Returned (<[ret := RunningStat 0 1 0]> (<[ob := RunningStat 0 1 0]> s),
            blank ob ret 0).

Definition keep (s : sample_store) (g : sample_game)
  : sample_store * sample_game := (s, g).

Definition reset (s : sample_store) (g : sample_game)
  : sample_store * sample_game :=
  (s, Game (observation_dtype g) (trajectory_states g) (trajectory_actions g)
           (trajectory_values g) (trajectory_neg_logprobs g)
           (trajectory_means g) (trajectory_logstds g)
           (trajectory_per_episode_rewards g)
           (trajectory_per_episode_lengths g) (trajectory_dones g)
           (trajectory_per_step_rewards g) (trajectory_returns g)
           (env_states g) (_ob_rms g) (_ret_rms g) (hidden g + 100)).

Definition initialize_episode_data (s : sample_store) (g : sample_game)
  : sample_store * sample_game :=
  (s, blank (_ob_rms g) (_ret_rms g) (hidden g)).

(** A rollout of [n] steps whose values are numbered from [from]. *)
Definition roll (n from : Z) (g : sample_game) : sample_game :=
  let steps := seqZ 0 n in
  let vals := floats ((fun i => from + i) <$> steps) in
  Game (observation_dtype g) vals vals vals vals vals vals
       (floats (replicate (Z.to_nat (n / 4)) 1))
       (replicate (Z.to_nat (n / 4)) 4)
       ((fun i => (i + 1) mod 4 =? 0) <$> steps)
       vals vals steps (_ob_rms g) (_ret_rms g) (hidden g).

Definition run_trajectory (max_steps : Z) (s : sample_store) (g : sample_game)
  : sample_store * sample_game := (s, roll max_steps (hidden g) g).

Definition mcts_initialization (state : Z) (action : scalar)
    (s : sample_store) (g : sample_game) : sample_store * sample_game :=
  (s, Game (observation_dtype g) (trajectory_states g) (trajectory_actions g)
           (trajectory_values g) (trajectory_neg_logprobs g)
           (trajectory_means g) (trajectory_logstds g)
           (trajectory_per_episode_rewards g)
           (trajectory_per_episode_lengths g) (trajectory_dones g)
           (trajectory_per_step_rewards g) (trajectory_returns g)
           (env_states g) (_ob_rms g) (_ret_rms g) (1000 + state)).

Definition run_mcts_trajectory (max_horizon : Z) (s : sample_store)
    (g : sample_game) : sample_store * sample_game :=
  (s, roll max_horizon (hidden g) g).

Definition load_norm (dir : string) : outcome (norm_file Z) :=
  if String.eqb dir "" then Raised IOError
  else Returned (NormFile (RunningStat 5 2 10) (RunningStat 7 3 10)).

#[global] Instance source : Source := {
  elt := scalar;
  env_state := Z;
  sim := Z;
  stat := Z;
  rollout := unit;
  cast := cast;
  infer := infer;
  elt_of_bool := PyBool;
  elt_of_int := PyInt;
  MCTSEnv_new := new;
  prepare_mcts_player := keep;
  update_estimator := fun _ => keep;
  reset := reset;
  game_initialize_episode_data := initialize_episode_data;
  run_trajectory := run_trajectory;
  mcts_initialization := mcts_initialization;
  run_mcts_trajectory := run_mcts_trajectory;
  load_norm := load_norm;
}.

(** A configuration: search enabled on steps 1 to 6 of 8, every second
    step, sub-spans of three steps. *)
Definition cfg : config :=
  Config tt 3 true 1 0.125 0.875 8 0.75 0.125 2 0 None false.

(** The same with fractions whose products with the seven iterations are
    1.75 and 6.125. *)
Definition cfg_fractional : config :=
  Config tt 3 true 1 0.25 0.875 7 0.75 0.125 2 0 None false.

(** A configuration with the window reversed and no sub-span length. *)
Definition cfg_reversed : config :=
  Config tt 0 true 1 0.875 0.125 8 0.75 0.125 2 0 None false.

(** A ten-step primary rollout: two episodes of four steps and a tail. *)
Definition primary10 : @game source := roll 10 0 (blank 1 2 0).

(** Two search buffers of Python floats, of two steps and of one. *)
Definition search1 : @game source := roll 2 0 (blank 3 4 0).
Definition search2 : @game source := roll 1 5 (blank 3 4 0).


(** An object before construction has filled it in. *)
Definition bare : @world source :=
  World (Obj 1 0 0 0 false false 1 None true ∅ (blank 1 2 0) (blank 3 4 0))
        ∅ [].

(** The world after construction, and after some [play] calls. *)
Definition built (c : config) : option world :=
  match __init__ c ∅ with
  | Returned w => Some w
  | Raised _ => None
  end.

Definition after (c : config) (args : list (Z * bool)) : world :=
  run_plays args (default bare (built c)).

(** The constructed object switched to search mode, its current-step
    attributes still empty. *)
Definition searching : @world source :=
  exec (modify (set_mcts_sampling true)) (after cfg []).

(** The configuration [cfg] with another sub-span length and collection
    frequency. *)
Definition cfg_with (len_segment freq : Z) : config :=
  Config tt len_segment true 1 0.125 0.875 8 0.75 0.125 freq 0 None false.

(** The configuration [cfg] asking for the checkpoint's statistics, with no
    checkpoint directory. *)
Definition cfg_update_rms : config :=
  Config tt 3 true 1 0.125 0.875 8 0.75 0.125 2 0 None true.

End Sample.

(** * Properties *)

Section Properties.

Context `{Source}.

(** ** The monad: running a bind, and what a computation leaves alone

    [preserves f m]: whatever [m] does, returning or raising, the
    observation [f] of the world is the same after it. *)

Lemma run_bind {A B} (m : M A) (f : A -> M B) (w : world) :
  (m ≫= f) w = match m w with
               | (Returned a, w') => f a w'
               | (Raised e, w') => (Raised e, w')
               end.
Proof. reflexivity. Qed.


Lemma preserves_ret {A B} (f : world -> B) (a : A) : preserves f (mret a).
Proof. intros w. reflexivity. Qed.

Lemma preserves_bind {A B C} (f : world -> C) (m : M A) (k : A -> M B) :
  preserves f m -> (forall a, preserves f (k a)) -> preserves f (m ≫= k).
Proof.
  intros Hm Hk w. unfold exec. rewrite run_bind.
  specialize (Hm w). unfold exec in Hm.
  destruct (m w) as [[a|e] w']; simpl in *.
  - rewrite <- Hm. apply Hk.
  - exact Hm.
Qed.

Lemma preserves_for {X B} (f : world -> B) (xs : list X) (body : X -> M unit) :
  (forall x, preserves f (body x)) -> preserves f (for_ xs body).
Proof.
  intros Hb. induction xs as [|x xs IH]; simpl.
  - apply preserves_ret.
  - apply preserves_bind; [apply Hb | intros _; exact IH].
Qed.

Lemma preserves_gets {A B} (f : world -> B) (g : ParallelEnv -> A) :
  preserves f (gets g).
Proof. intros w. reflexivity. Qed.

Lemma preserves_lift {A B} (f : world -> B) (o : outcome A) :
  preserves f (lift o).
Proof. intros w. reflexivity. Qed.

Lemma preserves_getattr {B} (f : world -> B) (name : string) :
  preserves f (getattr name).
Proof.
  intros w. unfold exec, getattr. destruct (data (self w) !! name); reflexivity.
Qed.

Lemma preserves_if {A B} (f : world -> B) (b : bool) (m1 m2 : M A) :
  preserves f m1 -> preserves f m2 -> preserves f (if b then m1 else m2).
Proof. destruct b; auto. Qed.

(** ** Python builtins *)

Lemma index_last {A} (l : list A) :
  index l (-1) = match last l with
                 | Some x => Returned x
                 | None => Raised IndexError
                 end.
Proof.
  unfold index. rewrite last_lookup.
  replace (-1 <? 0) with true by reflexivity.
  destruct l as [|a l]; [reflexivity|].
  replace (Z.to_nat (Z.of_nat (length (a :: l)) + -1))
    with (Nat.pred (length (a :: l))) by (simpl; lia).
  replace ((0 <=? Z.of_nat (length (a :: l)) + -1)
           && (Z.of_nat (length (a :: l)) + -1 <? Z.of_nat (length (a :: l))))
    with true; [reflexivity|].
  symmetry. apply andb_true_intro. split; [apply Z.leb_le | apply Z.ltb_lt];
    simpl; lia.
Qed.

Lemma index_in_range {A} (l : list A) (i : Z) :
  0 <= i < Z.of_nat (length l) ->
  exists x, index l i = Returned x /\ l !! Z.to_nat i = Some x.
Proof.
  intros Hi. unfold index.
  replace (i <? 0) with false by (symmetry; apply Z.ltb_ge; lia).
  replace ((0 <=? i) && (i <? Z.of_nat (length l))) with true.
  - destruct (lookup_lt_is_Some_2 l (Z.to_nat i)) as [x Hx]; [lia|].
    rewrite Hx. eauto.
  - symmetry. apply andb_true_intro.
    split; [apply Z.leb_le | apply Z.ltb_lt]; lia.
Qed.

Lemma sum_app (l1 l2 : list Z) : sum (l1 ++ l2) = sum l1 + sum l2.
Proof. unfold sum. induction l1 as [|x l1 IH]; simpl; lia. Qed.

Lemma fmap_int (l : list Z) : int <$> l = l.
Proof. induction l as [|x l IH]; [reflexivity|]. rewrite fmap_cons, IH. reflexivity. Qed.

(** ** The Segmentation Planner *)

(** C1. For a primary buffer whose [dones] is non-empty and has
    [max_steps] entries, [process_trajectory_lengths] returns the episode
    lengths (through [int]) when the last step is terminal, the episode
    lengths followed by [max_steps - sum] when it is not and an episode
    completed, and [[max_steps]] when none completed. When the recorded
    episode lengths are lengths (each at least one step), their sum is at
    most [max_steps] and reaches it exactly when the last step is terminal,
    the returned lengths are positive and sum to [max_steps]. *)
Theorem process_trajectory_lengths_spec (g : game) (max_steps : Z) :
  trajectory_dones g <> [] ->
  Z.of_nat (length (trajectory_dones g)) = max_steps ->
  let lens := trajectory_per_episode_lengths g in
  let last_done := last (trajectory_dones g) in
  exists segs,
    process_trajectory_lengths g max_steps = Returned segs
    /\ (last_done = Some true -> segs = int <$> lens)
    /\ (last_done = Some false -> lens <> [] ->
        segs = (int <$> lens) ++ [max_steps - sum lens])
    /\ (last_done = Some false -> lens = [] -> segs = [max_steps])
    /\ (Forall (fun l => 1 <= l) lens ->
        sum lens <= max_steps ->
        (sum lens = max_steps <-> last_done = Some true) ->
        Forall (fun l => 0 < l) segs /\ sum segs = max_steps).
Proof.
  intros Hne Hlen. cbv zeta.
  unfold process_trajectory_lengths. rewrite index_last.
  assert (Hpos : 0 < max_steps).
  { destruct (trajectory_dones g); [congruence | simpl in Hlen; lia]. }
  destruct (last (trajectory_dones g)) as [b|] eqn:Hl.
  2:{ rewrite last_lookup in Hl. apply lookup_ge_None in Hl.
      destruct (trajectory_dones g); [congruence | simpl in Hl; lia]. }
  unfold mbind, outcome_bind, mret, outcome_ret; cbv beta iota.
  destruct b.
  - exists (trajectory_per_episode_lengths g).
    rewrite fmap_int.
    split; [reflexivity|]. split; [reflexivity|].
    split; [congruence|]. split; [congruence|].
    intros Hall Hle Hiff. split; [|tauto].
    eapply Forall_impl; [exact Hall|]. simpl; lia.
  - destruct (trajectory_per_episode_lengths g) as [|l ls].
    + exists [max_steps].
      split; [reflexivity|].
      split; [congruence|]. split; [congruence|]. split; [reflexivity|].
      intros _ _ _. split.
      * repeat constructor. exact Hpos.
      * unfold sum. simpl. lia.
    + exists ((l :: ls) ++ [max_steps - sum (l :: ls)]).
      rewrite !fmap_int.
      split; [reflexivity|].
      split; [congruence|]. split; [reflexivity|]. split; [congruence|].
      intros Hall Hle Hiff.
      assert (sum (l :: ls) <> max_steps)
        by (intros E; apply Hiff in E; congruence).
      split.
      * apply Forall_app. split.
        -- eapply Forall_impl; [exact Hall|]. simpl; lia.
        -- repeat constructor. lia.
      * rewrite sum_app. unfold sum at 2. simpl. lia.
Qed.

(** Unfold a method down to the functions on worlds it is made of. *)
Ltac unfold_m :=
  unfold mbind, M_bind, mret, M_ret, gets, lift, getattr, setattr, modify,
    log, call_master, call_mcts.

(** ** The Aggregator *)

Lemma game_getattr_episode (g : game) (name : string) :
  name ∈ episode_attrs -> exists v, game_getattr g name = Returned v.
Proof.
  unfold episode_attrs. rewrite !elem_of_cons, elem_of_nil.
  intros Hn. repeat (destruct Hn as [-> | Hn]; [eexists; reflexivity|]).
  destruct Hn.
Qed.

Lemma data_attr_names (obs : dtype) : (data_attr_types obs).*1 = episode_attrs.
Proof. reflexivity. Qed.

Lemma episode_attrs_NoDup : NoDup episode_attrs.
Proof. apply (bool_decide_unpack _). vm_compute. exact I. Qed.

Lemma aggregate_mcts_attr_policy (w : world) name T v :
  mcts_sampling (self w) = false ->
  game_getattr (master_game (self w)) name = Returned v ->
  aggregate_mcts_attr (name, T) w
  = (Returned tt, with_data (<[name := asarray cast v T]> (data (self w))) w).
Proof.
  intros Hs Hv. unfold aggregate_mcts_attr; unfold_m. rewrite Hs, Hv. reflexivity.
Qed.

Lemma aggregate_mcts_attr_search (w : world) name T old v :
  mcts_sampling (self w) = true ->
  data (self w) !! name = Some old ->
  game_getattr (mcts_game (self w)) name = Returned v ->
  aggregate_mcts_attr (name, T) w
  = (Returned tt,
     with_data (<[name := merge T old v]> (data (self w))) w).
Proof.
  intros Hs Hold Hv. unfold aggregate_mcts_attr, merge; unfold_m.
  rewrite Hs, Hold, Hv. destruct (0 <? len old); reflexivity.
Qed.

(** The loop of [aggregate_mcts_data] outside search mode: every listed
    attribute ends as the primary game's, converted; the others stay. *)
Lemma aggregate_loop_policy (items : list (string * dtype)) (w : world) :
  NoDup items.*1 ->
  (forall name, name ∈ items.*1 -> name ∈ episode_attrs) ->
  mcts_sampling (self w) = false ->
  exists d,
    for_ items aggregate_mcts_attr w = (Returned tt, with_data d w)
    /\ (forall name T, (name, T) ∈ items ->
        exists v, game_getattr (master_game (self w)) name = Returned v
                  /\ d !! name = Some (asarray cast v T))
    /\ (forall name, name ∉ items.*1 -> d !! name = data (self w) !! name).
Proof.
  revert w. induction items as [|[name T] items IH]; intros w Hnd Hin Hs.
  - exists (data (self w)). split; [by destruct w as [[] ? ?]|].
    split; [intros ? ? Hx; by apply elem_of_nil in Hx | done].
  - apply NoDup_cons in Hnd as [Hfresh Hnd].
    destruct (game_getattr_episode (master_game (self w)) name) as [v Hv].
    { apply Hin. left. }
    set (w1 := with_data (<[name := asarray cast v T]> (data (self w))) w).
    destruct (IH w1 Hnd) as (d & Hrun & Hset & Hframe).
    { intros n Hn. apply Hin. by right. }
    { exact Hs. }
    exists d. split; [|split].
    + cbn [for_]. rewrite run_bind, (aggregate_mcts_attr_policy w name T v Hs Hv).
      exact Hrun.
    + intros n T' [Heq | Hrest]%elem_of_cons.
      * inversion Heq; subst n T'. exists v. split; [exact Hv|].
        rewrite (Hframe name Hfresh). apply lookup_insert_eq.
      * exact (Hset n T' Hrest).
    + intros n Hn. apply not_elem_of_cons in Hn as [Hne Hn].
      rewrite (Hframe n Hn). apply lookup_insert_ne. intros ->. by apply Hne.
Qed.


(** The same loop in search mode: every listed attribute is extended by
    the search game's, or started from it when it was empty. *)
Lemma aggregate_loop_search (items : list (string * dtype)) (w : world) :
  NoDup items.*1 ->
  (forall name, name ∈ items.*1 -> name ∈ episode_attrs) ->
  mcts_sampling (self w) = true ->
  (forall name, name ∈ items.*1 -> is_Some (data (self w) !! name)) ->
  exists d,
    for_ items aggregate_mcts_attr w = (Returned tt, with_data d w)
    /\ (forall name T, (name, T) ∈ items ->
        exists old v,
          data (self w) !! name = Some old
          /\ game_getattr (mcts_game (self w)) name = Returned v
          /\ d !! name = Some (merge T old v))
    /\ (forall name, name ∉ items.*1 -> d !! name = data (self w) !! name).
Proof.
  revert w. induction items as [|[name T] items IH]; intros w Hnd Hin Hs Hb.
  - exists (data (self w)). split; [by destruct w as [[] ? ?]|].
    split; [intros ? ? Hx; by apply elem_of_nil in Hx | done].
  - apply NoDup_cons in Hnd as [Hfresh Hnd].
    destruct (game_getattr_episode (mcts_game (self w)) name) as [v Hv].
    { apply Hin. left. }
    destruct (Hb name) as [old Hold]; [left|].
    set (new := merge T old v).
    set (w1 := with_data (<[name := new]> (data (self w))) w).
    destruct (IH w1 Hnd) as (d & Hrun & Hset & Hframe).
    { intros n Hn. apply Hin. by right. }
    { exact Hs. }
    { intros n Hn. simpl. apply lookup_insert_is_Some'. right.
      apply Hb. by right. }
    exists d. split; [|split].
    + cbn [for_].
      rewrite run_bind, (aggregate_mcts_attr_search w name T old v Hs Hold Hv).
      exact Hrun.
    + intros n T' [Heq | Hrest]%elem_of_cons.
      * inversion Heq; subst n T'. exists old, v.
        split; [exact Hold|]. split; [exact Hv|].
        rewrite (Hframe name Hfresh). apply lookup_insert_eq.
      * destruct (Hset n T' Hrest) as (old' & v' & Ho & Hg & Hd).
        exists old', v'. split; [|split; assumption].
        rewrite <- Ho. symmetry. apply lookup_insert_ne.
        intros ->. apply Hfresh.
        by apply (list_elem_of_fmap_2 fst _ (n, T')).
    + intros n Hn. apply not_elem_of_cons in Hn as [Hne Hn].
      rewrite (Hframe n Hn). apply lookup_insert_ne. intros ->. by apply Hne.
Qed.

(** C5. Outside search mode ([mcts_sampling] false) one call of
    [aggregate_mcts_data] returns and leaves each of the eleven
    [trajectory_*] attributes equal to the primary game's attribute of the
    same name converted to the attribute's type, whatever the attribute
    held before; nothing else in the world changes. *)
Theorem aggregate_mcts_data_copies_primary (w : world) :
  mcts_sampling (self w) = false ->
  let master := master_game (self w) in
  let table := data_attr_types (observation_dtype master) in
  table.*1 = episode_attrs
  /\ exists d,
       aggregate_mcts_data w = (Returned tt, with_data d w)
       /\ (forall name T, (name, T) ∈ table ->
           exists v, game_getattr master name = Returned v
                     /\ d !! name = Some (asarray cast v T))
       /\ (forall name, name ∉ episode_attrs ->
           d !! name = data (self w) !! name).
Proof.
  intros Hs master table. split; [reflexivity|].
  destruct (aggregate_loop_policy table w) as (d & Hrun & Hset & Hframe).
  - apply episode_attrs_NoDup.
  - auto.
  - exact Hs.
  - exists d. split; [|split; assumption].
    unfold aggregate_mcts_data. rewrite run_bind. exact Hrun.
Qed.

(** One search buffer more, in search mode: every named attribute becomes
    the [merge] of what it held with the buffer's attribute. *)
Lemma aggregate_after_one (b : game) (w : world) :
  mcts_sampling (self w) = true ->
  attrs_bound episode_attrs (self w) ->
  let table := data_attr_types (observation_dtype (master_game (self w))) in
  exists d,
    (modify (set_mcts_game b) ;; aggregate_mcts_data) w
    = (Returned tt,
       with_data d (World (set_mcts_game b (self w)) (rms w) (calls w)))
    /\ (forall name, name ∈ episode_attrs -> is_Some (d !! name))
    /\ forall name T, (name, T) ∈ table ->
       exists old v,
         data (self w) !! name = Some old
         /\ game_getattr b name = Returned v
         /\ d !! name = Some (merge T old v).
Proof.
  intros Hs Hb table.
  set (w0 := World (set_mcts_game b (self w)) (rms w) (calls w)).
  destruct (aggregate_loop_search table w0) as (d & Hrun & Hset & _).
  - apply episode_attrs_NoDup.
  - auto.
  - exact Hs.
  - intros name Hn. exact (proj1 (Forall_forall _ _) Hb name Hn).
  - exists d. split; [|split].
    + unfold aggregate_mcts_data. rewrite !run_bind. exact Hrun.
    + intros name Hn. change (name ∈ table.*1) in Hn.
      apply list_elem_of_fmap in Hn as ([n T] & -> & Hn).
      destruct (Hset n T Hn) as (old & v & _ & _ & Hd). by eexists.
    + exact Hset.
Qed.

Lemma attr_of_each_cons (name : string) (b : game) (bs : list game) v :
  game_getattr b name = Returned v ->
  attr_of_each name (b :: bs) = v :: attr_of_each name bs.
Proof. intros Hv. unfold attr_of_each. simpl. rewrite Hv. reflexivity. Qed.

(** The calls after the buffers [bs]: every named attribute is the fold of
    [merge] over the buffers' attribute, in call order. *)
Lemma aggregate_after_folds (bs : list game) :
  forall w : world,
  mcts_sampling (self w) = true ->
  attrs_bound episode_attrs (self w) ->
  let table := data_attr_types (observation_dtype (master_game (self w))) in
  exists w',
    aggregate_after bs w = (Returned tt, w')
    /\ forall name T, (name, T) ∈ table ->
       exists old,
         data (self w) !! name = Some old
         /\ data (self w') !! name
            = Some (foldl (merge T) old (attr_of_each name bs)).
Proof.
  induction bs as [|b bs IH]; intros w Hs Hb table.
  - exists w. split; [reflexivity|]. intros name T Hn.
    destruct (proj1 (Forall_forall _ _) Hb name) as [old Hold].
    { by apply (list_elem_of_fmap_2 fst _ (name, T)) in Hn. }
    by exists old.
  - destruct (aggregate_after_one b w Hs Hb) as (d & Hrun & Hbound & Hd).
    set (w1 := with_data d (World (set_mcts_game b (self w)) (rms w) (calls w))).
    destruct (IH w1 Hs) as (w' & Hrun' & Hd').
    { apply Forall_forall. exact Hbound. }
    exists w'. split.
    + unfold aggregate_after. cbn [for_]. rewrite run_bind.
      fold (aggregate_after bs).
      change (modify (set_mcts_game b) ≫= (fun _ => aggregate_mcts_data))
        with (modify (set_mcts_game b) ;; aggregate_mcts_data) in Hrun.
      rewrite Hrun. exact Hrun'.
    + intros name T Hn.
      destruct (Hd name T Hn) as (old & v & Hold & Hv & Hdn).
      destruct (Hd' name T Hn) as (old1 & Hold1 & Hfin).
      exists old. split; [exact Hold|].
      rewrite Hfin, (attr_of_each_cons name b bs v Hv). simpl.
      simpl in Hold1. rewrite Hdn in Hold1. by injection Hold1 as <-.
Qed.




(** ** What the methods leave alone *)

Ltac leaf :=
  let w := fresh "w" in
  intros w; unfold exec;
  repeat match goal with
         | |- context [let '(_, _) := ?p in _] => destruct p
         end;
  first [ reflexivity
        | cbn [snd calls self]; unfold hand_offs; rewrite omap_app;
          simpl; rewrite app_nil_r; reflexivity ].

(** Split a method along its binds, loops and branches; the statements
    at the leaves are checked one by one. *)
Ltac frame :=
  repeat match goal with
         | |- preserves _ (mret _) => apply preserves_ret
         | |- preserves _ (gets _) => apply preserves_gets
         | |- preserves _ (lift _) => apply preserves_lift
         | |- preserves _ (getattr _) => apply preserves_getattr
         | |- preserves _ (_ ≫= _) => apply preserves_bind; [|intros ?]
         | |- preserves _ (for_ _ _) => apply preserves_for; intros ?
         | |- preserves _ (if _ then _ else _) => apply preserves_if
         | |- preserves _ (modify _) => unfold modify; leaf
         | |- preserves _ (setattr _ _) => unfold setattr, modify; leaf
         | |- preserves _ (log _) => unfold log; leaf
         | |- preserves _ (call_master _ _) => unfold call_master; leaf
         | |- preserves _ (call_mcts _ _) => unfold call_mcts; leaf
         | |- preserves _ initialize_episode_data =>
             unfold initialize_episode_data
         | |- preserves _ initialize_policy_episode_data =>
             unfold initialize_policy_episode_data
         | |- preserves _ aggregate_mcts_data => unfold aggregate_mcts_data
         | |- preserves _ aggregate_policy_data => unfold aggregate_policy_data
         | |- preserves _ (aggregate_mcts_attr ?i) =>
             destruct i; unfold aggregate_mcts_attr
         | |- preserves _ (aggregate_policy_attr ?i) =>
             destruct i; unfold aggregate_policy_attr
         | |- preserves _ (rollout_from _ _ _ _ _) => unfold rollout_from
         | |- preserves _ (segment_rollouts _ _) => unfold segment_rollouts
         | |- preserves _ (run_primary _ _) => unfold run_primary
         | |- preserves _ policy_sampling => unfold policy_sampling
         | |- preserves _ hand_off => unfold hand_off
         | |- preserves _ phase => unfold phase
         end.

Lemma rollout_from_primary base U last n i :
  preserves (fun w => master_game (self w)) (rollout_from base U last n i).
Proof. frame. Qed.

(** ** The search rollouts of one segment *)

Lemma aggregate_mcts_data_returns (w : world) :
  attrs_bound episode_attrs (self w) ->
  exists d,
    aggregate_mcts_data w = (Returned tt, with_data d w)
    /\ attrs_bound episode_attrs (self (with_data d w)).
Proof.
  intros Hb. unfold aggregate_mcts_data. rewrite run_bind. unfold gets at 1.
  set (table := data_attr_types _).
  destruct (mcts_sampling (self w)) eqn:Hs.
  - destruct (aggregate_loop_search table w) as (d & Hrun & Hset & _);
      [apply episode_attrs_NoDup | auto | exact Hs
      | exact (proj1 (Forall_forall _ _) Hb) |].
    exists d. split; [exact Hrun|]. apply Forall_forall. intros name Hn.
    change (name ∈ table.*1) in Hn.
    apply list_elem_of_fmap in Hn as ([n T] & -> & Hn).
    destruct (Hset n T Hn) as (old & v & _ & _ & Hd). by eexists.
  - destruct (aggregate_loop_policy table w) as (d & Hrun & Hset & _);
      [apply episode_attrs_NoDup | auto | exact Hs |].
    exists d. split; [exact Hrun|]. apply Forall_forall. intros name Hn.
    change (name ∈ table.*1) in Hn.
    apply list_elem_of_fmap in Hn as ([n T] & -> & Hn).
    destruct (Hset n T Hn) as (v & _ & Hd). by eexists.
Qed.

(** One search rollout: with its start index inside the primary rollout
    it returns, having logged the initialization at that index and the
    run with its horizon. *)
Lemma rollout_from_run (w : world) (base U last n i : Z) :
  let g := master_game (self w) in
  0 <= base + U * i < Z.of_nat (length (env_states g)) ->
  base + U * i < len (trajectory_actions g) ->
  attrs_bound episode_attrs (self w) ->
  exists w',
    rollout_from base U last n i w = (Returned tt, w')
    /\ calls w' = calls w
                  ++ [MctsInitialization (base + U * i);
                      InitializeEpisodeData Mcts;
                      RunMctsTrajectory (if i <? n - 1 then U else last)]
    /\ attrs_bound episode_attrs (self w').
Proof.
  intros g Hs Ha Hb.
  destruct (index_in_range (env_states g) (base + U * i) Hs) as (st & Hst & _).
  destruct (index_in_range (items (trajectory_actions g)) (base + U * i))
    as (act & Hact & _); [unfold len in Ha; lia|].
  unfold rollout_from; unfold_m. fold g. rewrite Hst, Hact.
  destruct (mcts_initialization st act (rms w) (mcts_game (self w)))
    as [s1 g1].
  cbn [rms self mcts_game set_mcts_game calls].
  destruct (game_initialize_episode_data s1 g1) as [s2 g2].
  destruct (i <? n - 1);
    cbn [rms self mcts_game set_mcts_game calls];
    destruct (run_mcts_trajectory _ s2 g2) as [s3 g3];
    match goal with
    | |- context [aggregate_mcts_data ?w0] =>
        destruct (aggregate_mcts_data_returns w0) as (d & Hagg & Hb');
          [exact Hb|]; rewrite Hagg
    end;
    (eexists; split; [reflexivity|]; split; [|exact Hb']);
    simpl; rewrite <- !app_assoc; reflexivity.
Qed.

(** The rollouts of the indices [js] of a segment, all inside the primary
    rollout: they return, and log their initializations and runs in
    order. *)
Lemma rollouts_of_segment_run (base U last n : Z) (js : list Z) :
  forall w : world,
  let g := master_game (self w) in
  (forall i, i ∈ js ->
     0 <= base + U * i < Z.of_nat (length (env_states g))
     /\ base + U * i < len (trajectory_actions g)) ->
  attrs_bound episode_attrs (self w) ->
  exists w',
    for_ js (rollout_from base U last n) w = (Returned tt, w')
    /\ calls w' = calls w
         ++ concat ((fun i => [MctsInitialization (base + U * i);
                               InitializeEpisodeData Mcts;
                               RunMctsTrajectory
                                 (if i <? n - 1 then U else last)]) <$> js)
    /\ attrs_bound episode_attrs (self w').
Proof.
  induction js as [|i js IH]; intros w g Hin Hb.
  - exists w. split; [reflexivity|]. split; [|exact Hb].
    simpl. by rewrite app_nil_r.
  - destruct (Hin i) as [Hi Hi']; [left|].
    destruct (rollout_from_run w base U last n i Hi Hi' Hb)
      as (w1 & Hrun & Hc & Hb1).
    pose proof (rollout_from_primary base U last n i w) as Hg.
    unfold exec in Hg. rewrite Hrun in Hg. cbn [snd] in Hg.
    destruct (IH w1) as (w' & Hrun' & Hc' & Hb').
    { intros j Hj. rewrite Hg. apply Hin. by right. }
    { exact Hb1. }
    exists w'. split; [|split; [|exact Hb']].
    + cbn [for_]. rewrite run_bind, Hrun. exact Hrun'.
    + rewrite Hc', Hc. rewrite <- app_assoc. reflexivity.
Qed.

(** The ceiling of [L / U] for a positive unit. *)
Lemma ceil_div_spec (L U : Z) :
  1 <= U ->
  exists n, ceil_div L U = Returned n /\ (n - 1) * U < L <= n * U.
Proof.
  intros HU. unfold ceil_div.
  replace (U =? 0) with false by (symmetry; apply Z.eqb_neq; lia).
  eexists. split; [reflexivity|].
  pose proof (Z.div_mod (- L) U ltac:(lia)) as Hdm.
  pose proof (Z.mod_pos_bound (- L) U ltac:(lia)) as Hm.
  nia.
Qed.


Lemma init_indices_rollouts (f : Z -> Z) (h : Z -> Z) (js : list Z) :
  init_indices (concat ((fun i => [MctsInitialization (f i);
                                   InitializeEpisodeData Mcts;
                                   RunMctsTrajectory (h i)]) <$> js))
  = f <$> js.
Proof.
  induction js as [|i js IH]; [reflexivity|].
  cbn [fmap list_fmap concat]. unfold init_indices in *.
  rewrite omap_app, IH. reflexivity.
Qed.



(** The rollouts of one segment inside the primary rollout: one per
    index of [range(num_inits)], at [base_len + len_segment * i]. *)
Lemma segment_rollouts_run (w : world) (base L : Z) :
  let U := len_segment (self w) in
  let g := master_game (self w) in
  1 <= U ->
  0 <= base ->
  base + L <= Z.of_nat (length (env_states g)) ->
  base + L <= len (trajectory_actions g) ->
  attrs_bound episode_attrs (self w) ->
  exists n w',
    ceil_div L U = Returned n
    /\ (n - 1) * U < L <= n * U
    /\ segment_rollouts base L w = (Returned tt, w')
    /\ calls w' = calls w
         ++ concat ((fun i => [MctsInitialization (base + U * i);
                               InitializeEpisodeData Mcts;
                               RunMctsTrajectory
                                 (if i <? n - 1 then U
                                  else L - (n - 1) * U)]) <$> seqZ 0 n)
    /\ attrs_bound episode_attrs (self w').
Proof.
  intros U g HU Hbase Hs Ha Hb.
  destruct (ceil_div_spec L U HU) as (n & Hn & Hceil).
  destruct (rollouts_of_segment_run base U (L - (n - 1) * U) n (seqZ 0 n) w)
    as (w' & Hrun & Hc & Hb').
  { intros i Hi. apply elem_of_seqZ in Hi. fold g. nia. }
  { exact Hb. }
  exists n, w'. split; [exact Hn|]. split; [exact Hceil|].
  split; [|split; [exact Hc | exact Hb']].
  unfold segment_rollouts. rewrite !run_bind. unfold gets at 1. fold U.
  rewrite run_bind. unfold lift at 1. rewrite Hn.
  rewrite run_bind. unfold gets at 1. fold U. exact Hrun.
Qed.


Lemma segment_rollouts_primary base L :
  preserves (fun w => (master_game (self w), len_segment (self w)))
            (segment_rollouts base L).
Proof. frame. Qed.

(** ** All the search rollouts of a step *)

Lemma sum_nonneg (l : list Z) : Forall (fun x => 0 <= x) l -> 0 <= sum l.
Proof.
  induction 1 as [|x l Hx _ IH]; [done|].
  change (sum (x :: l)) with (x + sum l). lia.
Qed.

(** The loop over the segments, the segments being lengths that fit in
    the primary rollout from [base] on: it returns, and every rollout
    starts at an index between [base] and the end of the segments. *)
Lemma rollouts_run (segs : list Z) :
  forall (w : world) (base : Z),
  let U := len_segment (self w) in
  let g := master_game (self w) in
  1 <= U ->
  0 <= base ->
  Forall (fun l => 0 <= l) segs ->
  base + sum segs <= Z.of_nat (length (env_states g)) ->
  base + sum segs <= len (trajectory_actions g) ->
  attrs_bound episode_attrs (self w) ->
  exists w' cs,
    rollouts base segs w = (Returned tt, w')
    /\ calls w' = calls w ++ cs
    /\ Forall (fun i => base <= i < base + sum segs) (init_indices cs).
Proof.
  induction segs as [|L segs IH]; intros w base U g HU Hbase Hpos Hs Ha Hb.
  - exists w, []. split; [reflexivity|]. split; [by rewrite app_nil_r|].
    constructor.
  - apply Forall_cons in Hpos as [HL Hpos].
    change (sum (L :: segs)) with (L + sum segs) in *.
    pose proof (sum_nonneg segs Hpos).
    destruct (segment_rollouts_run w base L HU Hbase)
      as (n & w1 & Hn & Hceil & Hrun & Hc & Hb1); [fold g; lia.. | exact Hb |].
    fold U in Hn, Hceil, Hc.
    pose proof (segment_rollouts_primary base L w) as Hframe.
    unfold exec in Hframe. rewrite Hrun in Hframe. simpl in Hframe.
    injection Hframe as Hg HU1.
    destruct (IH w1 (base + L)) as (w' & cs & Hrun' & Hc' & Hin);
      [rewrite ?Hg, ?HU1; fold U g; first [exact Hpos | lia].. | exact Hb1 |].
    eexists w', _. split; [|split].
    + cbn [rollouts]. rewrite run_bind, Hrun. exact Hrun'.
    + rewrite Hc', Hc, <- app_assoc. reflexivity.
    + unfold init_indices in *. rewrite omap_app. apply Forall_app. split.
      * fold (init_indices
                (concat ((fun i => [MctsInitialization (base + U * i);
                                    InitializeEpisodeData Mcts;
                                    RunMctsTrajectory
                                      (if i <? n - 1 then U
                                       else L - (n - 1) * U)])
                         <$> seqZ 0 n))).
        rewrite (init_indices_rollouts (fun i => base + U * i)).
        apply Forall_fmap, Forall_forall. intros i Hi.
        apply elem_of_seqZ in Hi. simpl. nia.
      * eapply Forall_impl; [exact Hin|]. simpl. intros i Hi. lia.
Qed.

(** The planned segments are lengths and cover the step budget. *)
Lemma planned_segments (g : game) (max_steps : Z) (segs : list Z) :
  process_trajectory_lengths g max_steps = Returned segs ->
  0 <= max_steps ->
  Forall (fun l => 0 <= l) (trajectory_per_episode_lengths g) ->
  sum (trajectory_per_episode_lengths g) <= max_steps ->
  (last (trajectory_dones g) = Some true ->
   sum (trajectory_per_episode_lengths g) = max_steps) ->
  Forall (fun l => 0 <= l) segs /\ sum segs = max_steps.
Proof.
  unfold process_trajectory_lengths. rewrite index_last.
  destruct (last (trajectory_dones g)) as [[]|];
    unfold mbind, outcome_bind, mret, outcome_ret; cbv beta iota;
    rewrite ?fmap_int; intros Hrun Hmax Hpos Hle Heq; try discriminate.
  - injection Hrun as <-. split; [exact Hpos | by apply Heq].
  - destruct (trajectory_per_episode_lengths g) as [|l ls] eqn:Hl.
    + injection Hrun as <-. split; [by repeat constructor|].
      unfold sum. simpl. lia.
    + change (0 <? Z.of_nat (length (l :: ls))) with true in Hrun.
      injection Hrun as <-. split.
      * apply (proj2 (Forall_app _ (l :: ls) [max_steps - sum (l :: ls)])).
        split; [exact Hpos|]. repeat constructor. lia.
      * change (sum ((l :: ls) ++ [max_steps - sum (l :: ls)]) = max_steps).
        rewrite sum_app. unfold sum at 2. simpl. lia.
Qed.

(** C10. For a primary rollout whose [env_states] and [trajectory_actions]
    have [max_steps] entries, whose recorded episode lengths are lengths
    (not negative), sum to at most [max_steps] and to [max_steps] exactly
    when the last step is terminal, and for [len_segment >= 1]: the search
    loop over the planned segments returns, and every index
    [base_len + i * len_segment] at which it read the primary rollout's
    state and action is at least 0 and below [max_steps]. *)
Theorem rollouts_in_bounds (w : world) (max_steps : Z) (segs : list Z) :
  let g := master_game (self w) in
  let lens := trajectory_per_episode_lengths g in
  Z.of_nat (length (env_states g)) = max_steps ->
  len (trajectory_actions g) = max_steps ->
  Forall (fun l => 0 <= l) lens ->
  sum lens <= max_steps ->
  (sum lens = max_steps <-> last (trajectory_dones g) = Some true) ->
  1 <= len_segment (self w) ->
  attrs_bound episode_attrs (self w) ->
  process_trajectory_lengths g max_steps = Returned segs ->
  exists w',
    rollouts 0 segs w = (Returned tt, w')
    /\ Forall (fun i => 0 <= i < max_steps
                        /\ is_Some (env_states g !! Z.to_nat i)
                        /\ is_Some (items (trajectory_actions g)
                                      !! Z.to_nat i))
              (init_indices (new_calls (rollouts 0 segs) w)).
Proof.
  intros g lens Hs Ha Hpos Hle Hiff HU Hb Hplan.
  destruct (planned_segments g max_steps segs Hplan) as [Hsegs Hsum];
    [lia | exact Hpos | exact Hle | apply Hiff |].
  destruct (rollouts_run segs w 0 HU) as (w' & cs & Hrun & Hc & Hin);
    [lia | exact Hsegs | fold g; lia.. | exact Hb |].
  exists w'. split; [exact Hrun|].
  unfold new_calls, exec. rewrite Hrun. cbn [snd].
  rewrite Hc, drop_app_length.
  eapply Forall_impl; [exact Hin|]. simpl. intros i Hi.
  split; [lia|].
  split; apply lookup_lt_is_Some; unfold len in Ha; lia.
Qed.

(** ** The step function *)

Lemma bind_returned {A B} (m : M A) (k : A -> M B) (w w' : world) (b : B) :
  (m ≫= k) w = (Returned b, w') ->
  exists a w1, m w = (Returned a, w1) /\ k a w1 = (Returned b, w').
Proof.
  rewrite run_bind. destruct (m w) as [[a|e] w1]; [|discriminate].
  intros Hk. by exists a, w1.
Qed.

Lemma phase_run (w : world) : phase w = (phase_of (self w), w).
Proof. reflexivity. Qed.

(** The primary rollout: four calls on the primary game, nothing else of
    the object changes. *)
Lemma run_primary_run (max_steps : Z) (test_mode : bool) (w : world) :
  exists w1 g,
    run_primary max_steps test_mode w = (Returned tt, w1)
    /\ self w1 = set_master_game g (self w)
    /\ calls w1 = calls w ++ [UpdateEstimator Master test_mode;
                              ResetGame Master;
                              InitializeEpisodeData Master;
                              RunTrajectory max_steps].
Proof.
  unfold run_primary; unfold_m.
  destruct (update_estimator test_mode (rms w) (master_game (self w)))
    as [s1 g1].
  cbn [self rms calls master_game set_master_game].
  destruct (reset s1 g1) as [s2 g2].
  cbn [self rms calls master_game set_master_game].
  destruct (game_initialize_episode_data s2 g2) as [s3 g3].
  cbn [self rms calls master_game set_master_game].
  destruct (run_trajectory max_steps s3 g3) as [s4 g4].
  eexists _, g4. split; [reflexivity|]. split; [reflexivity|].
  cbn [calls]. rewrite <- !app_assoc. reflexivity.
Qed.

(** The hand-off: the first time, the search game's statistics are
    rebound to the primary game's objects and the guard is cleared. *)
Lemma hand_off_run (w : world) :
  exists w2,
    hand_off w = (Returned tt, w2)
    /\ self w2
       = (if first_mcts (self w)
          then set_first_mcts false
                 (set_mcts_game
                    (rebind_stats (_ob_rms (master_game (self w)))
                                  (_ret_rms (master_game (self w)))
                                  (mcts_game (self w)))
                    (self w))
          else self w)
    /\ calls w2
       = calls w
         ++ (if first_mcts (self w)
             then [RebindStats (_ob_rms (master_game (self w)))
                               (_ret_rms (master_game (self w)))]
             else []).
Proof.
  unfold hand_off; unfold_m. destruct (first_mcts (self w)).
  - eexists. split; [reflexivity|]. split; reflexivity.
  - exists w. split; [reflexivity|]. split; [reflexivity|].
    by rewrite app_nil_r.
Qed.

(** A call at which search is eligible and the gate is closed: it
    returns, and changes nothing of the object but the primary game, the
    search game's statistics (at the first eligible call), the guard and
    the step counter. *)
Lemma play_skips (w : world) (max_steps : Z) (test_mode : bool) (r : Z) :
  mcts_sample_enable (self w) = true ->
  phase_of (self w) = Returned r ->
  r <> 0 ->
  exists w' g' f,
    play max_steps test_mode w = (Returned tt, w')
    /\ self w'
       = set_sampling_step (sampling_step (self w) + 1)
           (set_first_mcts f
              (set_mcts_game g'
                 (set_master_game
                    (master_game
                       (self (exec (run_primary max_steps test_mode) w)))
                    (self w)))).
Proof.
  intros He Hp Hr.
  destruct (run_primary_run max_steps test_mode w) as (w1 & g & Hrun & Hw1 & _).
  destruct (hand_off_run w1) as (w2 & Hoff & Hw2 & _).
  assert (Hself : exists g' f, self w2 = set_first_mcts f
                                 (set_mcts_game g' (set_master_game g (self w)))).
  { rewrite Hw2. destruct (first_mcts (self w1)); rewrite Hw1.
    - eexists; eexists; reflexivity.
    - exists (mcts_game (self w)), (first_mcts (self w)).
      by destruct (self w). }
  destruct Hself as (g' & f & Hself).
  unfold play. rewrite run_bind, Hrun.
  rewrite run_bind. unfold gets at 1. rewrite Hw1.
  change (mcts_sample_enable (set_master_game g (self w)))
    with (mcts_sample_enable (self w)).
  rewrite He. cbn [negb].
  rewrite run_bind, run_bind, Hoff. cbv beta iota.
  rewrite run_bind, phase_run, Hself.
  change (phase_of _) with (phase_of (self w)). rewrite Hp.
  replace (r =? 0) with false by (symmetry; by apply Z.eqb_neq).
  unfold_m. rewrite Hself.
  eexists _, g', f. split; [reflexivity|].
  unfold exec. rewrite Hrun. cbn [snd self]. rewrite Hw1. reflexivity.
Qed.

(** C8. On a [play] call at which search is eligible and the frequency
    gate is closed (the phase [(sampling_step - mcts_start_step) %
    mcts_collect_data_freq] is not 0), the call returns and the data
    attributes, the eleven [trajectory_*] among them, and [mcts_sampling]
    are as they were before the call. *)
Theorem play_gate_closed (w : world) (max_steps : Z) (test_mode : bool) (r : Z) :
  mcts_sample_enable (self w) = true ->
  phase_of (self w) = Returned r ->
  r <> 0 ->
  exists w',
    play max_steps test_mode w = (Returned tt, w')
    /\ (forall name, name ∈ episode_attrs ->
        data (self w') !! name = data (self w) !! name)
    /\ data (self w') = data (self w)
    /\ mcts_sampling (self w') = mcts_sampling (self w)
    /\ sampling_step (self w') = sampling_step (self w) + 1.
Proof.
  intros He Hp Hr.
  destruct (play_skips w max_steps test_mode r He Hp Hr)
    as (w' & g' & f & Hrun & Hself).
  exists w'. split; [exact Hrun|].
  rewrite Hself. cbn [data mcts_sampling sampling_step set_sampling_step].
  by repeat split.
Qed.

(** *** The Policy Dataset *)

Lemma policy_attr_sources (obs : dtype) (name : string) :
  name ∈ (policy_data_attr_types obs).*1 ->
  exists src, split1_tail "_" name = Returned src /\ src ∈ episode_attrs.
Proof.
  cbn [policy_data_attr_types fmap list_fmap fst].
  rewrite !elem_of_cons, elem_of_nil. intros Hn.
  repeat (destruct Hn as [-> | Hn];
          [eexists; split; [reflexivity|];
           apply (bool_decide_unpack _); vm_compute; exact I|]).
  destruct Hn.
Qed.

Lemma aggregate_policy_attr_run (w : world) name T src v :
  split1_tail "_" name = Returned src ->
  game_getattr (master_game (self w)) src = Returned v ->
  aggregate_policy_attr (name, T) w
  = (Returned tt, with_data (<[name := asarray cast v T]> (data (self w))) w).
Proof.
  intros Hsrc Hv. unfold aggregate_policy_attr; unfold_m.
  rewrite Hsrc, Hv. reflexivity.
Qed.

Lemma aggregate_policy_loop (items : list (string * dtype)) (w : world) :
  NoDup items.*1 ->
  (forall name, name ∈ items.*1 ->
     exists src, split1_tail "_" name = Returned src /\ src ∈ episode_attrs) ->
  exists d,
    for_ items aggregate_policy_attr w = (Returned tt, with_data d w)
    /\ (forall name T, (name, T) ∈ items ->
        exists src v,
          split1_tail "_" name = Returned src
          /\ game_getattr (master_game (self w)) src = Returned v
          /\ d !! name = Some (asarray cast v T))
    /\ (forall name, name ∉ items.*1 -> d !! name = data (self w) !! name).
Proof.
  revert w. induction items as [|[name T] items IH]; intros w Hnd Hin.
  - exists (data (self w)). split; [by destruct w as [[] ? ?]|].
    split; [intros ? ? Hx; by apply elem_of_nil in Hx | done].
  - apply NoDup_cons in Hnd as [Hfresh Hnd].
    destruct (Hin name) as (src & Hsrc & Hep); [left|].
    destruct (game_getattr_episode (master_game (self w)) src Hep) as [v Hv].
    set (w1 := with_data (<[name := asarray cast v T]> (data (self w))) w).
    destruct (IH w1 Hnd) as (d & Hrun & Hset & Hframe).
    { intros n Hn. apply Hin. by right. }
    exists d. split; [|split].
    + cbn [for_].
      rewrite run_bind, (aggregate_policy_attr_run w name T src v Hsrc Hv).
      exact Hrun.
    + intros n T' [Heq | Hrest]%elem_of_cons.
      * inversion Heq; subst n T'. exists src, v.
        split; [exact Hsrc|]. split; [exact Hv|].
        rewrite (Hframe name Hfresh). apply lookup_insert_eq.
      * exact (Hset n T' Hrest).
    + intros n Hn. apply not_elem_of_cons in Hn as [Hne Hn].
      rewrite (Hframe n Hn). apply lookup_insert_ne. intros ->. by apply Hne.
Qed.

Lemma aggregate_policy_data_run (w : world) :
  exists d,
    aggregate_policy_data w = (Returned tt, with_data d w)
    /\ policy_refreshed (master_game (self w)) d.
Proof.
  set (table := policy_data_attr_types
                  (observation_dtype (master_game (self w)))).
  destruct (aggregate_policy_loop table w) as (d & Hrun & Hset & _).
  - apply (bool_decide_unpack _). vm_compute. exact I.
  - apply policy_attr_sources.
  - exists d. split; [|exact Hset].
    unfold aggregate_policy_data. rewrite run_bind. exact Hrun.
Qed.

Lemma rollouts_primary (segs : list Z) (base : Z) :
  preserves (fun w => master_game (self w)) (rollouts base segs).
Proof.
  revert base. induction segs as [|L segs IH]; intros base; cbn [rollouts].
  - apply preserves_ret.
  - apply preserves_bind; [frame | intros _; apply IH].
Qed.

Lemma clear_attrs_lookup (names : list string) :
  forall (d : gmap string (pyval elt)) (name : string),
  clear_attrs names d !! name
  = if decide (name ∈ names) then Some (PyList []) else d !! name.
Proof.
  induction names as [|n names IH]; intros d name; cbn [clear_attrs foldl].
  - case_decide as Hin; [by apply elem_of_nil in Hin | done].
  - fold (clear_attrs names (<[n := PyList []]> d)). rewrite IH.
    destruct (decide (name ∈ names)) as [Hin | Hnin].
    + rewrite decide_True by (by right). reflexivity.
    + destruct (decide (name = n)) as [-> | Hne].
      * rewrite decide_True by left. apply lookup_insert_eq.
      * rewrite decide_False by (by intros [? | ?]%elem_of_cons).
        apply lookup_insert_ne. congruence.
Qed.

Lemma cleared_bound (o : ParallelEnv) :
  attrs_bound episode_attrs
    (set_data (clear_attrs policy_attrs (clear_attrs episode_attrs (data o)))
              o).
Proof.
  apply Forall_forall. intros name Hn. cbn [data set_data].
  rewrite !clear_attrs_lookup.
  case_decide; [by eexists|]. rewrite decide_True by exact Hn. by eexists.
Qed.

(** Outside the search window: both datasets are rebuilt from the primary
    rollout. *)
Lemma policy_sampling_run (w : world) :
  exists w3,
    policy_sampling w = (Returned tt, w3)
    /\ master_game (self w3) = master_game (self w)
    /\ policy_refreshed (master_game (self w)) (data (self w3)).
Proof.
  unfold policy_sampling.
  rewrite run_bind. unfold initialize_episode_data at 1, modify at 1.
  rewrite run_bind. unfold initialize_policy_episode_data at 1, modify at 1.
  rewrite run_bind. unfold modify at 1. rewrite run_bind.
  cbn [self rms calls data set_data set_mcts_sampling].
  match goal with
  | |- context [aggregate_mcts_data ?w0] =>
      destruct (aggregate_mcts_data_returns w0)
        as (d & Hagg & _);
        [apply (cleared_bound (set_mcts_sampling false (self w)))|];
        rewrite Hagg
  end.
  match goal with
  | |- context [aggregate_policy_data ?w0] =>
      destruct (aggregate_policy_data_run w0) as (d' & Hpol & Href);
        rewrite Hpol
  end.
  eexists. split; [reflexivity|]. split; [reflexivity|]. exact Href.
Qed.

(** In the search window with the gate open: if the block returns, the
    policy attributes are refreshed from the primary rollout. *)
Lemma search_sampling_returned (w w3 : world) max_steps test_mode :
  search_sampling max_steps test_mode w = (Returned tt, w3) ->
  master_game (self w3) = master_game (self w)
  /\ policy_refreshed (master_game (self w)) (data (self w3)).
Proof.
  unfold search_sampling. intros Hrun.
  apply bind_returned in Hrun as ([] & w1 & H1 & Hrun).
  apply bind_returned in Hrun as ([] & w2 & H2 & Hrun).
  apply bind_returned in Hrun as ([] & w4 & H4 & Hrun).
  apply bind_returned in Hrun as ([] & w5 & H5 & Hrun).
  apply bind_returned in Hrun as (master & w6 & H6 & Hrun).
  apply bind_returned in Hrun as (segs & w7 & H7 & Hrun).
  apply bind_returned in Hrun as ([] & w8 & H8 & Hrun).
  assert (Hm : master_game (self w8) = master_game (self w)).
  { pose proof (rollouts_primary segs 0 w7) as E8.
    unfold exec in E8. rewrite H8 in E8. cbn [snd] in E8. rewrite E8.
    injection H7 as _ <-. injection H6 as _ <-.
    assert (E5 : preserves (fun w => master_game (self w))
                   (call_mcts (UpdateEstimator Mcts test_mode)
                              (update_estimator test_mode))) by frame.
    specialize (E5 w4). unfold exec in E5. rewrite H5 in E5. cbn [snd] in E5.
    rewrite E5.
    injection H4 as <-. injection H2 as <-. injection H1 as <-.
    reflexivity. }
  destruct (aggregate_policy_data_run w8) as (d & Hpol & Href).
  rewrite Hpol in Hrun. injection Hrun as <-.
  cbn [self with_data data set_data master_game]. rewrite <- Hm.
  split; [reflexivity | exact Href].
Qed.

(** A [play] call that returns: the primary rollout, the block chosen by
    the schedule, the step counter. *)
Lemma play_returned (w w' : world) (max_steps : Z) (test_mode : bool) :
  play max_steps test_mode w = (Returned tt, w') ->
  exists w1 w3,
    run_primary max_steps test_mode w = (Returned tt, w1)
    /\ self w' = set_sampling_step (sampling_step (self w3) + 1) (self w3)
    /\ (mcts_sample_enable (self w) = false ->
        policy_sampling w1 = (Returned tt, w3))
    /\ (mcts_sample_enable (self w) = true ->
        exists w2 r,
          hand_off w1 = (Returned tt, w2)
          /\ phase_of (self w2) = Returned r
          /\ (r = 0 -> search_sampling max_steps test_mode w2
                       = (Returned tt, w3))
          /\ (r <> 0 -> w3 = w2)).
Proof.
  intros Hplay. unfold play in Hplay.
  apply bind_returned in Hplay as ([] & w1 & Hrun & Hplay).
  apply bind_returned in Hplay as (enabled & w1' & Hg & Hplay).
  injection Hg as <- <-.
  apply bind_returned in Hplay as ([] & w3 & Hbody & Hinc).
  injection Hinc as <-.
  exists w1, w3. split; [exact Hrun|]. split; [reflexivity|].
  destruct (run_primary_run max_steps test_mode w) as (w1' & g & Hrun' & Hw1 & _).
  rewrite Hrun in Hrun'. injection Hrun' as <-.
  assert (He : mcts_sample_enable (self w1) = mcts_sample_enable (self w))
    by (by rewrite Hw1).
  rewrite He in Hbody.
  split; intros Hen; rewrite Hen in Hbody.
  - rewrite (eq_refl : negb false = true) in Hbody. exact Hbody.
  - rewrite (eq_refl : negb true = false) in Hbody.
    apply bind_returned in Hbody as ([] & w2 & Hoff & Hbody).
    apply bind_returned in Hbody as (r & w2' & Hph & Hbody).
    rewrite phase_run in Hph.
    assert (Hr : phase_of (self w2) = Returned r) by congruence.
    assert (w2' = w2) as -> by congruence.
    exists w2, r. split; [exact Hoff|]. split; [exact Hr|].
    split.
    + intros ->. rewrite Z.eqb_refl in Hbody. exact Hbody.
    + intros Hne. apply Z.eqb_neq in Hne. rewrite Hne in Hbody.
      by injection Hbody as ->.
Qed.

(** C2 (as amended). After a [play] call that returned, the primary game
    is the one the call's primary rollout left. If search was not
    eligible at the call, or was and the frequency gate was open, the six
    [policy_trajectory_*] attributes are the primary rollout's attributes
    of the corresponding names, converted to their types (the observation
    dtype for the states, float32 for the rest), whatever the search
    rollouts produced. If search was eligible and the gate was closed,
    they are what they were before the call. *)
Theorem play_policy_dataset (w w' : world) (max_steps : Z) (test_mode : bool) :
  play max_steps test_mode w = (Returned tt, w') ->
  let primary := master_game (self (exec (run_primary max_steps test_mode) w)) in
  master_game (self w') = primary
  /\ (mcts_sample_enable (self w) = false \/ phase_of (self w) = Returned 0 ->
      policy_refreshed primary (data (self w')))
  /\ (mcts_sample_enable (self w) = true ->
      forall r, phase_of (self w) = Returned r -> r <> 0 ->
      forall name, name ∈ policy_attrs ->
        data (self w') !! name = data (self w) !! name).
Proof.
  intros Hplay primary.
  destruct (play_returned w w' max_steps test_mode Hplay)
    as (w1 & w3 & Hrun & Hself & Hout & Hin).
  assert (Hprimary : primary = master_game (self w1)).
  { unfold primary, exec. rewrite Hrun. reflexivity. }
  clearbody primary. subst primary.
  destruct (run_primary_run max_steps test_mode w) as (w1' & g & Hrun' & Hw1 & _).
  rewrite Hrun in Hrun'. injection Hrun' as <-.
  assert (Hw' : master_game (self w') = master_game (self w3)
                /\ data (self w') = data (self w3))
    by (rewrite Hself; split; reflexivity).
  destruct Hw' as [Hm' Hd']. rewrite Hm', Hd'. clear Hself Hm' Hd'.
  destruct (mcts_sample_enable (self w)) eqn:He.
  - (* in the search window *)
    clear Hout. destruct (Hin eq_refl) as (w2 & r & Hoff & Hp2 & Hopen & Hclosed).
    destruct (hand_off_run w1) as (w2' & Hoff' & Hw2 & _).
    rewrite Hoff in Hoff'. injection Hoff' as <-.
    assert (Hm2 : master_game (self w2) = master_game (self w1)
                  /\ data (self w2) = data (self w)
                  /\ phase_of (self w2) = phase_of (self w)).
    { rewrite Hw2, Hw1.
      destruct (first_mcts (set_master_game g (self w)));
        repeat split; reflexivity. }
    destruct Hm2 as (Hm2 & Hd2 & Hp2'). rewrite Hp2' in Hp2.
    destruct (decide (r = 0)) as [-> | Hr].
    + apply search_sampling_returned in Hopen as [Hm3 Href]; [|reflexivity].
      rewrite Hm3, Hm2. split; [reflexivity|]. split.
      * intros _. rewrite <- Hm2. exact Href.
      * intros _ r Hr0 Hne. congruence.
    + rewrite (Hclosed Hr), Hm2, Hd2. split; [reflexivity|]. split.
      * intros [? | E]; [discriminate | congruence].
      * reflexivity.
  - (* outside the search window *)
    clear Hin. specialize (Hout eq_refl).
    destruct (policy_sampling_run w1) as (w3' & Hpol & Hm3 & Href).
    rewrite Hout in Hpol. injection Hpol as <-.
    split; [exact Hm3|]. split; [intros _; exact Href | discriminate].
Qed.

(** ** The schedule over the lifetime of an object *)

Lemma exec_bind {A B} (m : M A) (k : A -> M B) (w : world) :
  exec (m ≫= k) w = match m w with
                    | (Returned a, w1) => exec (k a) w1
                    | (Raised _, w1) => w1
                    end.
Proof.
  unfold exec. rewrite run_bind. by destruct (m w) as [[a|e] w1].
Qed.

Lemma rollouts_schedule (segs : list Z) (base : Z) :
  preserves (fun w => (mcts_start_step (self w), mcts_end_step (self w),
                       mcts_enable (self w), sampling_step (self w),
                       first_mcts (self w), hand_offs (calls w)))
            (rollouts base segs).
Proof.
  revert base. induction segs as [|L segs IH]; intros base; cbn [rollouts].
  - apply preserves_ret.
  - apply preserves_bind; [frame | intros _; apply IH].
Qed.

Lemma policy_sampling_schedule :
  preserves (fun w => (mcts_start_step (self w), mcts_end_step (self w),
                       mcts_enable (self w), sampling_step (self w),
                       first_mcts (self w), hand_offs (calls w)))
            policy_sampling.
Proof. frame. Qed.

Lemma search_sampling_schedule max_steps test_mode :
  preserves (fun w => (mcts_start_step (self w), mcts_end_step (self w),
                       mcts_enable (self w), sampling_step (self w),
                       first_mcts (self w), hand_offs (calls w)))
            (search_sampling max_steps test_mode).
Proof.
  unfold search_sampling. frame. apply rollouts_schedule.
Qed.

Lemma run_primary_schedule max_steps test_mode :
  preserves (fun w => (mcts_start_step (self w), mcts_end_step (self w),
                       mcts_enable (self w), sampling_step (self w),
                       first_mcts (self w), hand_offs (calls w)))
            (run_primary max_steps test_mode).
Proof. frame. Qed.

Lemma tuple5_eq {A B C D E} (a a' : A) (b b' : B) (c c' : C) (d d' : D)
    (e e' : E) :
  (a, b, c, d, e) = (a', b', c', d', e') ->
  a = a' /\ b = b' /\ c = c' /\ d = d' /\ e = e'.
Proof. intros E0. inversion E0. by repeat split. Qed.

Lemma tuple6_eq {A B C D E F} (a a' : A) (b b' : B) (c c' : C) (d d' : D)
    (e e' : E) (f f' : F) :
  (a, b, c, d, e, f) = (a', b', c', d', e', f') ->
  a = a' /\ b = b' /\ c = c' /\ d = d' /\ e = e' /\ f = f'.
Proof. intros E0. inversion E0. by repeat split. Qed.

Lemma gate_schedule max_steps test_mode :
  preserves (fun w => (mcts_start_step (self w), mcts_end_step (self w),
                       mcts_enable (self w), sampling_step (self w),
                       first_mcts (self w), hand_offs (calls w)))
            (r ← phase;
             if r =? 0 then search_sampling max_steps test_mode else mret tt).
Proof. frame. apply search_sampling_schedule. Qed.

Lemma count_step_schedule :
  preserves (fun w => (mcts_start_step (self w), mcts_end_step (self w),
                       mcts_enable (self w), first_mcts (self w),
                       hand_offs (calls w)))
            (step ← gets sampling_step; modify (set_sampling_step (step + 1))).
Proof. frame. Qed.

(** One [play] call, returning or raising: the schedule's constants stay;
    the guard stays unless search is eligible, and is false after an
    eligible call; the hand-off is logged exactly when search is eligible
    and the guard still true, with the primary game's two statistics
    objects. *)
Lemma play_step (w : world) (max_steps : Z) (test_mode : bool) :
  let w' := exec (play max_steps test_mode) w in
  let primary :=
    master_game (self (exec (run_primary max_steps test_mode) w)) in
  mcts_start_step (self w') = mcts_start_step (self w)
  /\ mcts_end_step (self w') = mcts_end_step (self w)
  /\ mcts_enable (self w') = mcts_enable (self w)
  /\ first_mcts (self w')
     = first_mcts (self w) && negb (mcts_sample_enable (self w))
  /\ hand_offs (calls w')
     = hand_offs (calls w)
       ++ (if mcts_sample_enable (self w) && first_mcts (self w)
           then [(_ob_rms primary, _ret_rms primary)] else []).
Proof.
  intros w' primary.
  destruct (run_primary_run max_steps test_mode w) as (w1 & g & Hrun & Hw1 & _).
  pose proof (run_primary_schedule max_steps test_mode w) as HS1.
  unfold exec in HS1. rewrite Hrun in HS1. cbn [snd] in HS1.
  apply tuple6_eq in HS1 as (Hst1 & Hen1 & Hme1 & Hss1 & Hfm1 & Hho1).
  assert (Hp : primary = master_game (self w1)).
  { unfold primary, exec. rewrite Hrun. reflexivity. }
  assert (He : mcts_sample_enable (self w1) = mcts_sample_enable (self w)).
  { unfold mcts_sample_enable. by rewrite Hst1, Hen1, Hme1, Hss1. }
  set (e := mcts_sample_enable (self w)) in *.
  (* the block chosen by the schedule *)
  set (body := if negb e then policy_sampling
               else hand_off ;;
                    r ← phase;
                    if r =? 0 then search_sampling max_steps test_mode
                    else mret tt).
  assert (Hw' : w' = match body w1 with
                     | (Returned _, w3) =>
                         exec (step ← gets sampling_step;
                               modify (set_sampling_step (step + 1))) w3
                     | (Raised _, w3) => w3
                     end).
  { unfold w', play. rewrite exec_bind, Hrun. cbv beta iota.
    rewrite exec_bind. unfold gets at 1. cbv beta iota. rewrite He.
    rewrite exec_bind. reflexivity. }
  assert (HT : (mcts_start_step (self w'), mcts_end_step (self w'),
                mcts_enable (self w'), first_mcts (self w'),
                hand_offs (calls w'))
               = (mcts_start_step (self (exec body w1)),
                  mcts_end_step (self (exec body w1)),
                  mcts_enable (self (exec body w1)),
                  first_mcts (self (exec body w1)),
                  hand_offs (calls (exec body w1)))).
  { rewrite Hw'. change (exec body w1) with (body w1).2.
    destruct (body w1) as [[[]|err] w3]; cbn [snd]; [|reflexivity].
    apply (count_step_schedule w3). }
  apply tuple5_eq in HT as (-> & -> & -> & -> & ->).
  clear Hw'. clearbody w'. clear w'. unfold body. clear body.
  destruct e; cbn [negb andb].
  - (* eligible *)
    rewrite exec_bind.
    destruct (hand_off_run w1) as (w2 & Hoff & Hw2 & Hc2). rewrite Hoff.
    pose proof (gate_schedule max_steps test_mode w2) as HS2.
    cbv beta in HS2. apply tuple6_eq in HS2 as (-> & -> & -> & _ & -> & ->).
    rewrite Hw2, Hc2, Hp, Hfm1.
    destruct (first_mcts (self w)); cbn [andb].
    + cbn [mcts_start_step mcts_end_step mcts_enable first_mcts
           set_first_mcts set_mcts_game].
      unfold hand_offs at 1. rewrite omap_app. fold (hand_offs (calls w1)).
      rewrite Hst1, Hen1, Hme1, Hho1. repeat split; reflexivity.
    + rewrite Hst1, Hen1, Hme1, Hfm1, !app_nil_r, Hho1.
      repeat split; reflexivity.
  - (* not eligible *)
    pose proof (policy_sampling_schedule w1) as HS2.
    cbv beta in HS2. apply tuple6_eq in HS2 as (-> & -> & -> & _ & -> & ->).
    rewrite Hst1, Hen1, Hme1, Hfm1, Hho1, app_nil_r, andb_true_r.
    repeat split; reflexivity.
Qed.

(** What a returned construction built. *)
Lemma init_returned (cfg : config) (s0 : store) (w0 : world) :
  __init__ cfg s0 = Returned w0 ->
  exists x y a b master mcts,
    float_mul_int (cfg_mcts_start_step_frac cfg) (cfg_num_iterations cfg)
    = Returned x
    /\ int_of_float x = Returned a
    /\ float_mul_int (cfg_mcts_end_step_frac cfg) (cfg_num_iterations cfg)
       = Returned y
    /\ int_of_float y = Returned b
    /\ self w0
       = Obj (cfg_len_segment cfg) 0 a b (cfg_mcts_enable cfg) false
             (cfg_mcts_collect_data_freq cfg) (cfg_checkpoint_dir cfg) true
             (clear_attrs policy_attrs (clear_attrs episode_attrs ∅))
             master mcts
    /\ calls w0 = [].
Proof.
  unfold __init__, mbind, outcome_bind, mret, outcome_ret.
  destruct (float_mul_int (cfg_mcts_start_step_frac cfg) _) as [x|] eqn:Hx;
    [|discriminate].
  destruct (int_of_float x) as [a|] eqn:Ha; [|discriminate].
  destruct (float_mul_int (cfg_mcts_end_step_frac cfg) _) as [y|] eqn:Hy;
    [|discriminate].
  destruct (int_of_float y) as [b|] eqn:Hb; [|discriminate].
  destruct (MCTSEnv_new (game_args_of cfg) s0) as [[s1 master]|];
    [|discriminate].
  destruct (if cfg_update_rms cfg then _ else _) as [s2|]; [|discriminate].
  destruct (MCTSEnv_new (game_args_of cfg) s2) as [[s3 g]|]; [|discriminate].
  destruct (prepare_mcts_player s3 g) as [s4 mcts].
  intros [= <-]. exists x, y, a, b, master, mcts.
  repeat split; first [assumption | reflexivity].
Qed.

Lemma mcts_sample_enable_spec (o : ParallelEnv) :
  mcts_sample_enable o = true
  <-> mcts_enable o = true
      /\ mcts_start_step o <= sampling_step o < mcts_end_step o.
Proof.
  unfold mcts_sample_enable.
  rewrite !andb_true_iff, Z.leb_le, Z.ltb_lt. tauto.
Qed.

(** C6 (as amended). For an object built by [__init__] and any number of
    [play] calls on it, returned or raised: [mcts_start_step] and
    [mcts_end_step] are still the values computed at construction,
    [int(mcts_start_step_frac * num_iterations)] and
    [int(mcts_end_step_frac * num_iterations)], where [int] truncates
    toward zero (it does not round); and search is eligible exactly when
    [mcts_enable] was set and
    [mcts_start_step <= sampling_step < mcts_end_step]. *)
Theorem eligibility_window (cfg : config) (s0 : store) (w0 w : world) :
  __init__ cfg s0 = Returned w0 ->
  plays_to w0 w ->
  exists x y,
    float_mul_int (cfg_mcts_start_step_frac cfg) (cfg_num_iterations cfg)
    = Returned x
    /\ int_of_float x = Returned (mcts_start_step (self w))
    /\ float_mul_int (cfg_mcts_end_step_frac cfg) (cfg_num_iterations cfg)
       = Returned y
    /\ int_of_float y = Returned (mcts_end_step (self w))
    /\ (mcts_sample_enable (self w) = true
        <-> cfg_mcts_enable cfg = true
            /\ mcts_start_step (self w) <= sampling_step (self w)
               < mcts_end_step (self w)).
Proof.
  intros Hinit Hplays.
  destruct (init_returned cfg s0 w0 Hinit)
    as (x & y & a & b & master & mcts & Hx & Ha & Hy & Hb & Hself & _).
  assert (Hkept : mcts_start_step (self w) = a
                  /\ mcts_end_step (self w) = b
                  /\ mcts_enable (self w) = cfg_mcts_enable cfg).
  { induction Hplays as [|w1 max_steps test_mode _ IH].
    - rewrite Hself. repeat split; reflexivity.
    - destruct (play_step w1 max_steps test_mode) as (E1 & E2 & E3 & _).
      rewrite E1, E2, E3. exact IH. }
  destruct Hkept as (Hs & He & Hen).
  exists x, y. rewrite Hs, He.
  split; [exact Hx|]. split; [exact Ha|]. split; [exact Hy|].
  split; [exact Hb|].
  rewrite mcts_sample_enable_spec, Hs, He, Hen. reflexivity.
Qed.

(** *** The one-time hand-off *)



(** ** Construction *)

(** C9 (as amended). [__init__] checks neither the order of the two
    fractions nor the sign of [len_segment]: whenever the two products
    [frac * num_iterations] convert to ints, the MCTSEnv constructor
    accepts the arguments it is handed ([len_segment] is not among them)
    and, with [update_rms], the norm file of the checkpoint directory
    loads, construction returns an object, which holds [len_segment] as
    given; with [mcts_end_step <= mcts_start_step] search is never
    eligible on it. *)
Theorem init_checks_nothing (cfg : config) (s0 : store) (x y : float)
    (a b : Z) :
  float_mul_int (cfg_mcts_start_step_frac cfg) (cfg_num_iterations cfg)
  = Returned x ->
  int_of_float x = Returned a ->
  float_mul_int (cfg_mcts_end_step_frac cfg) (cfg_num_iterations cfg)
  = Returned y ->
  int_of_float y = Returned b ->
  (forall s, exists r, MCTSEnv_new (game_args_of cfg) s = Returned r) ->
  (cfg_update_rms cfg = true ->
   exists dir norm,
     cfg_checkpoint_dir cfg = Some dir /\ load_norm dir = Returned norm) ->
  exists w0,
    __init__ cfg s0 = Returned w0
    /\ len_segment (self w0) = cfg_len_segment cfg
    /\ mcts_start_step (self w0) = a
    /\ mcts_end_step (self w0) = b
    /\ (b <= a -> forall w, plays_to w0 w ->
        mcts_sample_enable (self w) = false).
Proof.
  intros Hx Ha Hy Hb Hnew Hnorm.
  assert (Hret : exists w0, __init__ cfg s0 = Returned w0).
  { unfold __init__, mbind, outcome_bind, mret, outcome_ret.
    rewrite Hx, Ha, Hy, Hb.
    destruct (Hnew s0) as [[s1 master] ->].
    assert (Hs2 : exists s2,
               (if cfg_update_rms cfg
                then match
                       match cfg_checkpoint_dir cfg with
                       | Some d => Returned d
                       | None => Raised TypeError
                       end
                     with
                     | Returned dir =>
                         match load_norm dir with
                         | Returned norm =>
                             Returned
                               (<[_ret_rms master := norm_ret norm]>
                                  (<[_ob_rms master := norm_obs norm]> s1))
                         | Raised e => Raised e
                         end
                     | Raised e => Raised e
                     end
                else Returned s1) = Returned s2).
    { destruct (cfg_update_rms cfg); [|by eexists].
      destruct (Hnorm eq_refl) as (dir & norm & -> & ->). by eexists. }
    destruct Hs2 as [s2 ->].
    destruct (Hnew s2) as [[s3 g] ->].
    destruct (prepare_mcts_player s3 g) as [s4 mcts]. by eexists. }
  destruct Hret as [w0 Hinit]. exists w0. split; [exact Hinit|].
  destruct (init_returned cfg s0 w0 Hinit)
    as (x' & y' & a' & b' & master & mcts & Hx' & Ha' & Hy' & Hb' & Hself & _).
  assert (a' = a) as -> by congruence.
  assert (b' = b) as -> by congruence.
  rewrite Hself. split; [reflexivity|]. split; [reflexivity|].
  split; [reflexivity|].
  intros Hle w Hplays.
  assert (Hkept : mcts_start_step (self w) = a /\ mcts_end_step (self w) = b).
  { induction Hplays as [|w1 max_steps test_mode _ IH].
    - rewrite Hself. split; reflexivity.
    - destruct (play_step w1 max_steps test_mode) as (E1 & E2 & _).
      rewrite E1, E2. exact IH. }
  destruct Hkept as [Hs He].
  destruct (mcts_sample_enable (self w)) eqn:Hen; [|reflexivity].
  apply mcts_sample_enable_spec in Hen. lia.
Qed.

(** A computation whose outcome is a return, as a run to its world. *)
Lemma run_exec {A} (m : M A) (w : world) (a : A) :
  (m w).1 = Returned a -> m w = (Returned a, exec m w).
Proof.
  unfold exec. destruct (m w) as [o w1]. cbn [fst snd]. by intros ->.
Qed.

(** * Further properties *)

(** ** The Segmentation Planner on buffers that break its assumptions *)

Lemma process_trajectory_lengths_raises (g : game) (max_steps : Z) :
  (forall e, process_trajectory_lengths g max_steps = Raised e ->
     trajectory_dones g = [] /\ e = IndexError)
  /\ (trajectory_dones g = [] ->
      process_trajectory_lengths g max_steps = Raised IndexError).
Proof.
  unfold process_trajectory_lengths. rewrite index_last.
  destruct (last (trajectory_dones g)) as [b|] eqn:Hl;
    unfold mbind, outcome_bind, mret, outcome_ret; cbv beta iota.
  - split; [discriminate|]. intros E. rewrite E in Hl. discriminate.
  - apply last_None in Hl. split; [intros e [= <-]; by split | reflexivity].
Qed.

(** X1. [process_trajectory_lengths] raises exactly when the primary
    buffer's [dones] is empty, and then IndexError. When it returns after a
    rollout whose last step is terminal, the result is the recorded episode
    lengths and [max_steps] is not consulted; when the last step is not
    terminal the returned lengths sum to [max_steps] whatever the recorded
    lengths are, the final one being [max_steps] minus their sum (zero or
    negative when they sum to [max_steps] or more). *)
Theorem process_trajectory_lengths_unchecked (g : game) (max_steps : Z)
    (segs : list Z) :
  (forall e, process_trajectory_lengths g max_steps = Raised e
     <-> trajectory_dones g = [] /\ e = IndexError)
  /\ (process_trajectory_lengths g max_steps = Returned segs ->
      let lens := trajectory_per_episode_lengths g in
      (last (trajectory_dones g) = Some true -> segs = lens)
      /\ (last (trajectory_dones g) = Some false ->
          sum segs = max_steps
          /\ last segs = Some (max_steps - sum lens))).
Proof.
  unfold process_trajectory_lengths. rewrite index_last.
  destruct (last (trajectory_dones g)) as [b|] eqn:Hl;
    unfold mbind, outcome_bind, mret, outcome_ret; cbv beta iota.
  - assert (Hne : trajectory_dones g <> []).
    { intros E. rewrite E in Hl. discriminate. }
    split.
    + intros e. split; [discriminate | intros [E _]; contradiction].
    + rewrite fmap_int. intros [= <-]. cbv zeta. destruct b.
      * split; [reflexivity | discriminate].
      * split; [discriminate|]. intros _.
        destruct (trajectory_per_episode_lengths g) as [|l ls].
        -- split; [unfold sum; simpl; lia|]. simpl. f_equal. unfold sum.
           simpl. lia.
        -- change (0 <? Z.of_nat (length (l :: ls))) with true. cbv iota.
           split; [rewrite sum_app; unfold sum at 2; simpl; lia|].
           apply last_snoc.
  - apply last_None in Hl. split.
    + intros e. split; [intros [= <-]; by split | intros [_ ->]; reflexivity].
    + discriminate.
Qed.

(** No name is in both datasets. *)
Lemma episode_not_policy (name : string) :
  name ∈ episode_attrs -> name ∉ policy_attrs.
Proof.
  intros Hn Hp. revert Hn.
  unfold policy_attrs in Hp. rewrite !elem_of_cons, elem_of_nil in Hp.
  repeat (destruct Hp as [-> | Hp];
          [apply (bool_decide_unpack _); vm_compute; exact I|]).
  destruct Hp.
Qed.

(** ** The Aggregator: what a call adds and what it leaves *)

Lemma policy_attr_names (obs : dtype) (name : string) :
  name ∈ (policy_data_attr_types obs).*1 <-> name ∈ policy_attrs.
Proof.
  cbn [policy_data_attr_types fmap list_fmap fst]. unfold policy_attrs.
  rewrite !elem_of_cons, !elem_of_nil. tauto.
Qed.

Lemma policy_attr_names_NoDup (obs : dtype) :
  NoDup (policy_data_attr_types obs).*1.
Proof. apply (bool_decide_unpack _). vm_compute. exact I. Qed.

(** The six policy attributes of [aggregate_policy_data] from the primary
    game, the rest of the data attributes as they were. *)
Lemma aggregate_policy_data_full (w : world) :
  exists d,
    aggregate_policy_data w = (Returned tt, with_data d w)
    /\ policy_refreshed (master_game (self w)) d
    /\ (forall name, name ∉ policy_attrs ->
        d !! name = data (self w) !! name).
Proof.
  set (table := policy_data_attr_types
                  (observation_dtype (master_game (self w)))).
  destruct (aggregate_policy_loop table w) as (d & Hrun & Hset & Hframe).
  - apply policy_attr_names_NoDup.
  - apply policy_attr_sources.
  - exists d. split; [|split; [exact Hset|]].
    + unfold aggregate_policy_data. rewrite run_bind. exact Hrun.
    + intros name Hn. apply Hframe. intros Hin. apply Hn.
      by apply (policy_attr_names (observation_dtype (master_game (self w)))).
Qed.


(** X3. A second call of [aggregate_policy_data] changes nothing: the
    world after two calls is the world after one. *)
Theorem aggregate_policy_data_idempotent (w : world) :
  exec aggregate_policy_data (exec aggregate_policy_data w)
  = exec aggregate_policy_data w.
Proof.
  destruct (aggregate_policy_data_full w) as (d1 & Hrun1 & Href1 & Hframe1).
  unfold exec at 2 3. rewrite Hrun1. cbn [snd].
  destruct (aggregate_policy_data_full (with_data d1 w))
    as (d2 & Hrun2 & Href2 & Hframe2).
  unfold exec. rewrite Hrun2. cbn [snd].
  assert (Hd : d2 = d1).
  { apply map_eq. intros name.
    set (obs := observation_dtype (master_game (self w))).
    destruct (decide (name ∈ (policy_data_attr_types obs).*1))
      as [Hin | Hnin].
    - apply list_elem_of_fmap in Hin as ([n T] & -> & Hin). cbn [fst].
      destruct (Href1 n T Hin) as (src1 & v1 & Hs1 & Hv1 & ->).
      destruct (Href2 n T Hin) as (src2 & v2 & Hs2 & Hv2 & ->).
      cbn [with_data self master_game set_data] in Hv2. congruence.
    - rewrite Hframe2; [reflexivity|].
      intros Hp. apply Hnin. by apply policy_attr_names. }
  rewrite Hd. reflexivity.
Qed.

(** X4. Outside search mode a second call of [aggregate_mcts_data] changes
    nothing: the world after two calls is the world after one. *)
Theorem aggregate_mcts_data_idempotent (w : world) :
  mcts_sampling (self w) = false ->
  exec aggregate_mcts_data (exec aggregate_mcts_data w)
  = exec aggregate_mcts_data w.
Proof.
  intros Hs.
  set (table := data_attr_types (observation_dtype (master_game (self w)))).
  destruct (aggregate_loop_policy table w) as (d1 & Hrun1 & Hset1 & Hframe1);
    [apply episode_attrs_NoDup | auto | exact Hs |].
  destruct (aggregate_loop_policy table (with_data d1 w))
    as (d2 & Hrun2 & Hset2 & Hframe2);
    [apply episode_attrs_NoDup | auto | exact Hs |].
  assert (Hrun1' : aggregate_mcts_data w = (Returned tt, with_data d1 w)).
  { unfold aggregate_mcts_data. rewrite run_bind. exact Hrun1. }
  assert (Hrun2' : aggregate_mcts_data (with_data d1 w)
                   = (Returned tt, with_data d2 (with_data d1 w))).
  { unfold aggregate_mcts_data. rewrite run_bind. exact Hrun2. }
  unfold exec at 2 3. rewrite Hrun1'. cbn [snd].
  unfold exec. rewrite Hrun2'. cbn [snd].
  assert (Hd : d2 = d1).
  { apply map_eq. intros name.
    destruct (decide (name ∈ table.*1)) as [Hin | Hnin].
    - apply list_elem_of_fmap in Hin as ([n T] & -> & Hin). cbn [fst].
      destruct (Hset1 n T Hin) as (v1 & Hv1 & ->).
      destruct (Hset2 n T Hin) as (v2 & Hv2 & ->).
      cbn [with_data self master_game set_data] in Hv2. congruence.
    - rewrite (Hframe2 name Hnin). reflexivity. }
  rewrite Hd. reflexivity.
Qed.

Lemma len_merge (T : dtype) (old v : pyval elt) :
  len (merge T old v) = len old + len v.
Proof.
  unfold merge. destruct (0 <? len old) eqn:Hl.
  - unfold concatenate, len. cbn [items].
    rewrite length_app, !length_fmap. lia.
  - apply Z.ltb_ge in Hl. unfold asarray, len in *. cbn [items].
    rewrite length_fmap. lia.
Qed.

Lemma len_merge_fold (T : dtype) (vs : list (pyval elt)) :
  forall old, len (foldl (merge T) old vs) = len old + sum (len <$> vs).
Proof.
  induction vs as [|v vs IH]; intros old.
  - unfold sum. simpl. lia.
  - cbn [foldl]. rewrite IH, len_merge, fmap_cons.
    change (sum (len v :: (len <$> vs))) with (len v + sum (len <$> vs)). lia.
Qed.

(** X5. In search mode no row is lost or counted twice, whatever the
    dtypes: after [aggregate_mcts_data] has been called once for each of the
    search buffers [bs], each of the eleven [trajectory_*] attributes has as
    many rows as it had before plus the rows of that attribute in all the
    buffers. *)
Theorem aggregate_after_counts (bs : list game) (w : world) :
  mcts_sampling (self w) = true ->
  attrs_bound episode_attrs (self w) ->
  exists w',
    aggregate_after bs w = (Returned tt, w')
    /\ forall name, name ∈ episode_attrs ->
       exists old new,
         data (self w) !! name = Some old
         /\ data (self w') !! name = Some new
         /\ len new = len old + sum (len <$> attr_of_each name bs).
Proof.
  intros Hs Hb.
  destruct (aggregate_after_folds bs w Hs Hb) as (w' & Hrun & Hd).
  exists w'. split; [exact Hrun|]. intros name Hn.
  rewrite <- (data_attr_names (observation_dtype (master_game (self w)))) in Hn.
  apply list_elem_of_fmap in Hn as ([n T] & -> & Hn). cbn [fst].
  destruct (Hd n T Hn) as (old & Hold & Hnew).
  exists old, (foldl (merge T) old (attr_of_each n bs)).
  split; [exact Hold|]. split; [exact Hnew|]. apply len_merge_fold.
Qed.

(** ** Construction with [update_rms] *)

(** X6. With [update_rms] set and no checkpoint directory, construction
    never returns an object: whatever the other arguments, [__init__]
    raises. *)
Theorem init_update_rms_needs_dir (cfg : config) (s0 : store) :
  cfg_update_rms cfg = true ->
  cfg_checkpoint_dir cfg = None ->
  returns (__init__ cfg s0) = false.
Proof.
  intros Hu Hd. unfold __init__, mbind, outcome_bind, mret, outcome_ret.
  destruct (float_mul_int (cfg_mcts_start_step_frac cfg) _); [|reflexivity].
  destruct (int_of_float _); [|reflexivity].
  destruct (float_mul_int (cfg_mcts_end_step_frac cfg) _); [|reflexivity].
  destruct (int_of_float _); [|reflexivity].
  destruct (MCTSEnv_new (game_args_of cfg) s0) as [[s1 master]|];
    [|reflexivity].
  rewrite Hu, Hd. reflexivity.
Qed.

(** ** The two initialisers *)

Lemma clear_attrs_run (names : list string) (w : world) :
  modify (fun o => set_data (clear_attrs names (data o)) o) w
  = (Returned tt, with_data (clear_attrs names (data (self w))) w).
Proof. reflexivity. Qed.

Lemma clear_attrs_twice (names : list string) (d : gmap string (pyval elt)) :
  clear_attrs names (clear_attrs names d) = clear_attrs names d.
Proof.
  apply map_eq. intros name. rewrite !clear_attrs_lookup.
  repeat case_decide; first [reflexivity | contradiction].
Qed.

Lemma clear_attrs_comm (names1 names2 : list string)
    (d : gmap string (pyval elt)) :
  clear_attrs names1 (clear_attrs names2 d)
  = clear_attrs names2 (clear_attrs names1 d).
Proof.
  apply map_eq. intros name. rewrite !clear_attrs_lookup.
  repeat case_decide; reflexivity.
Qed.

(** X7. [initialize_episode_data] never raises and touches nothing but
    the eleven [trajectory_*] attributes: each of them is the empty list
    after the call, whether it existed before or not; every other data
    attribute, the six [policy_trajectory_*] among them, and the rest of
    the world are as they were; a second call changes nothing. *)
Theorem initialize_episode_data_clears (w : world) :
  exists d,
    initialize_episode_data w = (Returned tt, with_data d w)
    /\ (forall name, name ∈ episode_attrs -> d !! name = Some (PyList []))
    /\ (forall name, name ∉ episode_attrs ->
        d !! name = data (self w) !! name)
    /\ (forall name, name ∈ policy_attrs -> d !! name = data (self w) !! name)
    /\ exec initialize_episode_data (with_data d w) = with_data d w.
Proof.
  exists (clear_attrs episode_attrs (data (self w))).
  split; [apply clear_attrs_run|].
  assert (Hout : forall name, name ∉ episode_attrs ->
            clear_attrs episode_attrs (data (self w)) !! name
            = data (self w) !! name).
  { intros name Hn. rewrite clear_attrs_lookup. by rewrite decide_False. }
  split; [|split; [exact Hout|split]].
  - intros name Hn. rewrite clear_attrs_lookup. by rewrite decide_True.
  - intros name Hn. apply Hout. intros He.
    by apply (episode_not_policy name He).
  - unfold exec, initialize_episode_data. rewrite clear_attrs_run.
    cbn [snd with_data self rms calls data set_data].
    rewrite clear_attrs_twice. reflexivity.
Qed.

(** X8. [initialize_policy_episode_data] never raises and touches nothing
    but the six [policy_trajectory_*] attributes, which are empty lists
    after the call; the eleven [trajectory_*] attributes are as they were.
    The two initialisers are independent: called in either order they
    leave the same world, with all seventeen attributes empty. *)
Theorem initialize_policy_episode_data_clears (w : world) :
  exists d,
    initialize_policy_episode_data w = (Returned tt, with_data d w)
    /\ (forall name, name ∈ policy_attrs -> d !! name = Some (PyList []))
    /\ (forall name, name ∉ policy_attrs -> d !! name = data (self w) !! name)
    /\ (forall name, name ∈ episode_attrs ->
        d !! name = data (self w) !! name)
    /\ exec (initialize_episode_data ;; initialize_policy_episode_data) w
       = exec (initialize_policy_episode_data ;; initialize_episode_data) w
    /\ forall name, name ∈ episode_attrs ++ policy_attrs ->
       data (self (exec (initialize_policy_episode_data ;;
                         initialize_episode_data) w)) !! name
       = Some (PyList []).
Proof.
  exists (clear_attrs policy_attrs (data (self w))).
  split; [apply clear_attrs_run|].
  assert (Hout : forall name, name ∉ policy_attrs ->
            clear_attrs policy_attrs (data (self w)) !! name
            = data (self w) !! name).
  { intros name Hn. rewrite clear_attrs_lookup. by rewrite decide_False. }
  split; [|split; [exact Hout|split; [|split]]].
  - intros name Hn. rewrite clear_attrs_lookup. by rewrite decide_True.
  - intros name Hn. apply Hout. by apply episode_not_policy.
  - unfold exec, initialize_episode_data, initialize_policy_episode_data.
    rewrite !run_bind, !clear_attrs_run. cbv beta iota.
    rewrite ?clear_attrs_run.
    cbn [snd with_data self rms calls data set_data].
    rewrite (clear_attrs_comm policy_attrs). reflexivity.
  - intros name Hn.
    unfold exec, initialize_episode_data, initialize_policy_episode_data.
    rewrite !run_bind, !clear_attrs_run. cbv beta iota.
    rewrite ?clear_attrs_run.
    cbn [snd with_data self rms calls data set_data].
    rewrite !clear_attrs_lookup. apply elem_of_app in Hn.
    repeat case_decide; first [reflexivity | tauto].
Qed.

(** ** A call outside the search window *)

(** The policy-sampling block: it returns, in policy mode, with both
    datasets rebuilt from the primary game and nothing else changed. *)
Lemma policy_sampling_full (w : world) :
  let primary := master_game (self w) in
  exists d,
    policy_sampling w
    = (Returned tt,
       with_data d (World (set_mcts_sampling false (self w)) (rms w) (calls w)))
    /\ (forall name T,
          (name, T) ∈ data_attr_types (observation_dtype primary) ->
          exists v, game_getattr primary name = Returned v
                    /\ d !! name = Some (asarray cast v T))
    /\ policy_refreshed primary d
    /\ (forall name, name ∉ episode_attrs -> name ∉ policy_attrs ->
        d !! name = data (self w) !! name).
Proof.
  intros primary. unfold policy_sampling.
  rewrite run_bind. unfold initialize_episode_data at 1, modify at 1.
  rewrite run_bind. unfold initialize_policy_episode_data at 1, modify at 1.
  rewrite run_bind. unfold modify at 1. rewrite run_bind.
  cbn [self rms calls data set_data set_mcts_sampling].
  match goal with
  | |- context [aggregate_mcts_data ?w0] => set (wa := w0)
  end.
  set (table := data_attr_types (observation_dtype primary)).
  destruct (aggregate_loop_policy table wa) as (d1 & Hrun1 & Hset1 & Hframe1);
    [apply episode_attrs_NoDup | auto | reflexivity |].
  assert (Hagg : aggregate_mcts_data wa = (Returned tt, with_data d1 wa)).
  { unfold aggregate_mcts_data. rewrite run_bind. exact Hrun1. }
  rewrite Hagg.
  destruct (aggregate_policy_data_full (with_data d1 wa))
    as (d2 & Hrun2 & Href2 & Hframe2).
  rewrite Hrun2. exists d2. split; [reflexivity|]. split; [|split].
  - intros name T Hn. destruct (Hset1 name T Hn) as (v & Hv & Hd).
    exists v. split; [exact Hv|].
    rewrite Hframe2; [exact Hd|]. apply episode_not_policy.
    rewrite <- (data_attr_names (observation_dtype primary)).
    by apply (list_elem_of_fmap_2 fst _ (name, T)).
  - exact Href2.
  - intros name Hne Hnp. rewrite (Hframe2 name Hnp).
    cbn [with_data self data set_data].
    rewrite Hframe1 by exact Hne.
    unfold wa. cbn [self data set_mcts_sampling set_data].
    rewrite !clear_attrs_lookup.
    rewrite decide_False by exact Hnp. by rewrite decide_False by exact Hne.
Qed.

(** A call at which search is not eligible, as one step on the world. *)
Lemma play_outside_run (w : world) (max_steps : Z) (test_mode : bool) :
  mcts_sample_enable (self w) = false ->
  let w1 := exec (run_primary max_steps test_mode) w in
  let primary := master_game (self w1) in
  exists d,
    play max_steps test_mode w
    = (Returned tt,
       World (set_sampling_step (sampling_step (self w) + 1)
                (set_data d (set_mcts_sampling false
                               (set_master_game primary (self w)))))
             (rms w1)
             (calls w ++ [UpdateEstimator Master test_mode; ResetGame Master;
                          InitializeEpisodeData Master;
                          RunTrajectory max_steps]))
    /\ (forall name T,
          (name, T) ∈ data_attr_types (observation_dtype primary) ->
          exists v, game_getattr primary name = Returned v
                    /\ d !! name = Some (asarray cast v T))
    /\ policy_refreshed primary d
    /\ (forall name, name ∉ episode_attrs -> name ∉ policy_attrs ->
        d !! name = data (self w) !! name).
Proof.
  intros He w1 primary.
  destruct (run_primary_run max_steps test_mode w)
    as (w1' & g & Hrun & Hw1 & Hc1).
  assert (w1 = w1') as Ew by (unfold w1, exec; by rewrite Hrun).
  clearbody w1. subst w1'.
  assert (Hg : primary = g) by (unfold primary; by rewrite Hw1).
  clearbody primary. subst g.
  destruct (policy_sampling_full w1) as (d & Hpol & Hset & Href & Hframe).
  assert (Hm1 : master_game (self w1) = primary) by (by rewrite Hw1).
  rewrite Hm1 in Hset, Href.
  exists d. split; [|split; [exact Hset|split; [exact Href|]]].
  - unfold play. rewrite run_bind, Hrun.
    rewrite run_bind. unfold gets at 1. rewrite Hw1.
    change (mcts_sample_enable (set_master_game primary (self w)))
      with (mcts_sample_enable (self w)).
    rewrite He. rewrite (eq_refl : negb false = true).
    rewrite run_bind. rewrite Hw1 in Hpol. rewrite Hpol.
    unfold_m. cbn [with_data self rms calls]. rewrite Hc1. reflexivity.
  - intros name Hne Hnp. rewrite (Hframe name Hne Hnp). by rewrite Hw1.
Qed.

(** X9. A [play] call at which search is not eligible returns (the
    rollout source's methods and numpy's conversions returning), in policy
    mode, with the step counter advanced by one and each of the eleven
    [trajectory_*] attributes equal to the attribute of the same name of
    the primary rollout just made, converted to its type in the table;
    the other data attributes, the six policy ones apart, are as before. *)
Theorem play_outside_window (w : world) (max_steps : Z) (test_mode : bool) :
  mcts_sample_enable (self w) = false ->
  let primary :=
    master_game (self (exec (run_primary max_steps test_mode) w)) in
  exists w',
    play max_steps test_mode w = (Returned tt, w')
    /\ master_game (self w') = primary
    /\ mcts_sampling (self w') = false
    /\ sampling_step (self w') = sampling_step (self w) + 1
    /\ (forall name T,
          (name, T) ∈ data_attr_types (observation_dtype primary) ->
          exists v, game_getattr primary name = Returned v
                    /\ data (self w') !! name = Some (asarray cast v T))
    /\ (forall name, name ∉ episode_attrs -> name ∉ policy_attrs ->
        data (self w') !! name = data (self w) !! name).
Proof.
  intros He primary.
  destruct (play_outside_run w max_steps test_mode He)
    as (d & Hplay & Hset & _ & Hframe).
  fold primary in Hplay, Hset.
  eexists. split; [exact Hplay|].
  cbn [self master_game mcts_sampling sampling_step data set_sampling_step
       set_data].
  repeat split; assumption.
Qed.

(** X10. A [play] call at which search is not eligible never touches the
    search game: the only calls it makes are the four of the primary
    rollout, on the primary game; the search game and the hand-off guard
    are as they were. *)
Theorem play_outside_leaves_search (w : world) (max_steps : Z)
    (test_mode : bool) :
  mcts_sample_enable (self w) = false ->
  let w' := exec (play max_steps test_mode) w in
  new_calls (play max_steps test_mode) w
  = [UpdateEstimator Master test_mode; ResetGame Master;
     InitializeEpisodeData Master; RunTrajectory max_steps]
  /\ mcts_game (self w') = mcts_game (self w)
  /\ first_mcts (self w') = first_mcts (self w).
Proof.
  intros He w'.
  destruct (play_outside_run w max_steps test_mode He) as (d & Hplay & _).
  unfold new_calls. subst w'. unfold exec. rewrite Hplay. cbn [snd calls self].
  rewrite drop_app_length. repeat split; reflexivity.
Qed.

(** ** The step counter *)

Lemma rollouts_counter (segs : list Z) (base : Z) :
  preserves (fun w => (sampling_step (self w), len_segment (self w),
                       mcts_collect_data_freq (self w)))
            (rollouts base segs).
Proof.
  revert base. induction segs as [|L segs IH]; intros base; cbn [rollouts].
  - apply preserves_ret.
  - apply preserves_bind; [frame | intros _; apply IH].
Qed.

Lemma gate_counter max_steps test_mode (e : bool) :
  preserves (fun w => (sampling_step (self w), len_segment (self w),
                       mcts_collect_data_freq (self w)))
            (if negb e then policy_sampling
             else hand_off ;;
                  r ← phase;
                  if r =? 0 then search_sampling max_steps test_mode
                  else mret tt).
Proof.
  frame. unfold search_sampling. frame. apply rollouts_counter.
Qed.

(** One [play] call: the step counter advances exactly when the call
    returns; [len_segment] and [mcts_collect_data_freq] stay. *)
Lemma play_counter (w : world) (max_steps : Z) (test_mode : bool) :
  let w' := exec (play max_steps test_mode) w in
  sampling_step (self w')
  = sampling_step (self w)
    + (if returns (play max_steps test_mode w).1 then 1 else 0)
  /\ len_segment (self w') = len_segment (self w)
  /\ mcts_collect_data_freq (self w') = mcts_collect_data_freq (self w).
Proof.
  intros w'.
  destruct (run_primary_run max_steps test_mode w) as (w1 & g & Hrun & Hw1 & _).
  set (e := mcts_sample_enable (self w)).
  set (body := if negb e then policy_sampling
               else hand_off ;;
                    r ← phase;
                    if r =? 0 then search_sampling max_steps test_mode
                    else mret tt).
  assert (Hplay : play max_steps test_mode w
                  = match body w1 with
                    | (Returned _, w3) =>
                        (Returned tt,
                         World (set_sampling_step (sampling_step (self w3) + 1)
                                                  (self w3))
                               (rms w3) (calls w3))
                    | (Raised err, w3) => (Raised err, w3)
                    end).
  { unfold play. rewrite run_bind, Hrun.
    rewrite run_bind. unfold gets at 1. rewrite Hw1.
    change (mcts_sample_enable (set_master_game g (self w))) with e.
    rewrite run_bind. fold body.
    destruct (body w1) as [[[]|err] w3]; reflexivity. }
  pose proof (gate_counter max_steps test_mode e w1) as Hb.
  fold body in Hb. unfold exec in Hb.
  subst w'. unfold exec. rewrite Hplay.
  destruct (body w1) as [[[]|err] w3]; cbn [fst snd returns] in *;
    cbn [self sampling_step len_segment mcts_collect_data_freq
         set_sampling_step];
    injection Hb as -> -> ->; rewrite Hw1; repeat split; cbn; lia.
Qed.

(** X11. The step counter counts the calls that returned: after any
    sequence of [play] calls it has advanced by the number of calls of the
    sequence that returned; a call that raised is not counted. *)
Theorem sampling_step_counts (args : list (Z * bool)) (w : world) :
  sampling_step (self (run_plays args w))
  = sampling_step (self w) + completed args w.
Proof.
  revert w. induction args as [|a args IH]; intros w.
  - cbn [run_plays foldl completed]. lia.
  - change (run_plays (a :: args) w)
      with (run_plays args (exec (play_with a) w)).
    cbn [completed]. rewrite IH. destruct (play_counter w a.1 a.2) as (Hs & _).
    fold (play_with a) in Hs. cbv zeta in Hs. rewrite Hs. lia.
Qed.

(** X12. The search window never reopens: over any [play] calls the step
    counter does not decrease, and once it has reached [mcts_end_step], or
    when search was not enabled, search is not eligible at any later
    call. *)
Theorem search_window_closes (w w' : world) :
  plays_to w w' ->
  mcts_end_step (self w) <= sampling_step (self w)
  \/ mcts_enable (self w) = false ->
  sampling_step (self w) <= sampling_step (self w')
  /\ mcts_sample_enable (self w') = false.
Proof.
  intros Hplays Hclosed.
  assert (Hinv : sampling_step (self w) <= sampling_step (self w')
                 /\ mcts_end_step (self w') = mcts_end_step (self w)
                 /\ mcts_enable (self w') = mcts_enable (self w)).
  { induction Hplays as [|w1 max_steps test_mode _ IH].
    - repeat split; reflexivity || lia.
    - destruct (play_step w1 max_steps test_mode) as (_ & E2 & E3 & _).
      destruct (play_counter w1 max_steps test_mode) as (Hs & _).
      cbv zeta in Hs. rewrite E2, E3, Hs.
      destruct IH as (? & ? & ?).
      destruct (returns _); repeat split; first [assumption | lia]. }
  destruct Hinv as (Hle & He & Hen). split; [exact Hle|].
  destruct (mcts_sample_enable (self w')) eqn:Hel; [|reflexivity].
  apply mcts_sample_enable_spec in Hel as (Hon & _ & Hlt).
  destruct Hclosed as [Hend | Hoff]; [lia | congruence].
Qed.

(** ** A call in the search window *)

(** The hand-off leaves the guard false. *)
Lemma hand_off_guard (w1 : world) :
  exists w2 g',
    hand_off w1 = (Returned tt, w2)
    /\ self w2 = set_first_mcts false (set_mcts_game g' (self w1))
    /\ rms w2 = rms w1
    /\ calls w2
       = calls w1
         ++ (if first_mcts (self w1)
             then [RebindStats (_ob_rms (master_game (self w1)))
                               (_ret_rms (master_game (self w1)))]
             else []).
Proof.
  unfold hand_off; unfold_m. destruct (first_mcts (self w1)) eqn:Hf.
  - eexists _, _. split; [reflexivity|]. repeat split; reflexivity.
  - exists w1, (mcts_game (self w1)). split; [reflexivity|].
    split; [|split; [reflexivity | by rewrite app_nil_r]].
    destruct (self w1). cbn in Hf. subst. reflexivity.
Qed.

(** An eligible call up to its frequency gate. *)
Lemma play_eligible (w : world) (max_steps : Z) (test_mode : bool) :
  mcts_sample_enable (self w) = true ->
  let primary :=
    master_game (self (exec (run_primary max_steps test_mode) w)) in
  exists w2 g',
    play max_steps test_mode w
    = ((r ← lift (phase_of (self w));
        if r =? 0 then search_sampling max_steps test_mode else mret tt) ;;
       step ← gets sampling_step;
       modify (set_sampling_step (step + 1))) w2
    /\ self w2
       = set_first_mcts false
           (set_mcts_game g' (set_master_game primary (self w)))
    /\ calls w2
       = calls w
         ++ [UpdateEstimator Master test_mode; ResetGame Master;
             InitializeEpisodeData Master; RunTrajectory max_steps]
         ++ (if first_mcts (self w)
             then [RebindStats (_ob_rms primary) (_ret_rms primary)]
             else []).
Proof.
  intros He primary.
  destruct (run_primary_run max_steps test_mode w)
    as (w1 & g & Hrun & Hw1 & Hc1).
  assert (Hg : primary = g).
  { unfold primary, exec. rewrite Hrun. cbn [snd]. by rewrite Hw1. }
  clearbody primary. subst g.
  destruct (hand_off_guard w1) as (w2 & g' & Hoff & Hw2 & _ & Hc2).
  exists w2, g'. split; [|split].
  - unfold play. rewrite run_bind, Hrun.
    rewrite run_bind. unfold gets at 1. rewrite Hw1.
    change (mcts_sample_enable (set_master_game primary (self w)))
      with (mcts_sample_enable (self w)).
    rewrite He. rewrite (eq_refl : negb true = false).
    rewrite !run_bind, Hoff. cbv beta iota.
    rewrite run_bind, phase_run. unfold lift. rewrite Hw2, Hw1. reflexivity.
  - rewrite Hw2, Hw1. reflexivity.
  - rewrite Hc2, Hc1, Hw1, <- app_assoc. reflexivity.
Qed.

(** A call at which search is eligible and the frequency is zero. *)
Lemma play_zero_freq_run (w : world) (max_steps : Z) (test_mode : bool) :
  mcts_sample_enable (self w) = true ->
  mcts_collect_data_freq (self w) = 0 ->
  exists w' g g',
    play max_steps test_mode w = (Raised ZeroDivisionError, w')
    /\ self w'
       = set_first_mcts false
           (set_mcts_game g' (set_master_game g (self w))).
Proof.
  intros He Hf.
  destruct (play_eligible w max_steps test_mode He)
    as (w2 & g' & Hplay & Hw2 & _).
  eexists w2, _, g'. split; [|exact Hw2].
  rewrite Hplay. rewrite !run_bind. unfold lift at 1.
  unfold phase_of, mod_. rewrite Hf. reflexivity.
Qed.

(** X13. With [mcts_collect_data_freq] zero the object is stuck at the
    first eligible call: that call and every [play] call after it raise
    ZeroDivisionError, the step counter stays where it was and the data
    attributes and [mcts_sampling] are never updated again. *)
Theorem play_zero_frequency (w w1 : world) (max_steps : Z) (test_mode : bool) :
  mcts_sample_enable (self w) = true ->
  mcts_collect_data_freq (self w) = 0 ->
  plays_to w w1 ->
  exists w',
    play max_steps test_mode w1 = (Raised ZeroDivisionError, w')
    /\ first_mcts (self w') = false
    /\ sampling_step (self w') = sampling_step (self w)
    /\ data (self w') = data (self w)
    /\ mcts_sampling (self w') = mcts_sampling (self w).
Proof.
  intros He Hf Hplays.
  assert (Hinv : mcts_sample_enable (self w1) = true
                 /\ mcts_collect_data_freq (self w1) = 0
                 /\ sampling_step (self w1) = sampling_step (self w)
                 /\ data (self w1) = data (self w)
                 /\ mcts_sampling (self w1) = mcts_sampling (self w)).
  { induction Hplays as [|w2 ms tm _ IH]; [by repeat split|].
    destruct IH as (He2 & Hf2 & Hs2 & Hd2 & Hm2).
    destruct (play_zero_freq_run w2 ms tm He2 Hf2)
      as (w' & g & g' & Hrun & Hw').
    unfold exec. rewrite Hrun. cbn [snd]. rewrite Hw'.
    repeat split; assumption. }
  destruct Hinv as (He1 & Hf1 & Hs1 & Hd1 & Hm1).
  destruct (play_zero_freq_run w1 max_steps test_mode He1 Hf1)
    as (w' & g & g' & Hrun & Hw').
  exists w'. split; [exact Hrun|]. rewrite Hw'.
  repeat split; assumption.
Qed.

Lemma bind_assoc_run {A B C} (m : M A) (k : A -> M B) (k' : B -> M C)
    (w : world) :
  ((m ≫= k) ≫= k') w = (m ≫= (fun a => k a ≫= k')) w.
Proof. unfold mbind, M_bind. by destruct (m w) as [[a|e] w1]. Qed.

(** An eligible call with the gate open, from the planner on. *)
Lemma play_gate_open (w : world) (max_steps : Z) (test_mode : bool) :
  mcts_sample_enable (self w) = true ->
  phase_of (self w) = Returned 0 ->
  let primary :=
    master_game (self (exec (run_primary max_steps test_mode) w)) in
  exists w5,
    play max_steps test_mode w
    = (len_trajectories ← lift (process_trajectory_lengths primary max_steps);
       rollouts 0 len_trajectories ;;
       aggregate_policy_data ;;
       step ← gets sampling_step;
       modify (set_sampling_step (step + 1))) w5
    /\ master_game (self w5) = primary
    /\ len_segment (self w5) = len_segment (self w)
    /\ sampling_step (self w5) = sampling_step (self w)
    /\ mcts_sampling (self w5) = true
    /\ data (self w5)
       = clear_attrs policy_attrs (clear_attrs episode_attrs (data (self w)))
    /\ calls w5
       = calls w
         ++ [UpdateEstimator Master test_mode; ResetGame Master;
             InitializeEpisodeData Master; RunTrajectory max_steps]
         ++ (if first_mcts (self w)
             then [RebindStats (_ob_rms primary) (_ret_rms primary)]
             else [])
         ++ [UpdateEstimator Mcts test_mode].
Proof.
  intros He Hp primary.
  destruct (play_eligible w max_steps test_mode He)
    as (w2 & g' & Hplay & Hw2 & Hc2).
  fold primary in Hw2, Hc2. clearbody primary.
  rewrite Hplay, Hp. clear Hplay.
  rewrite run_bind, run_bind. unfold lift at 1. cbv beta iota.
  rewrite Z.eqb_refl. unfold search_sampling.
  rewrite run_bind. unfold initialize_episode_data at 1, modify at 1.
  rewrite run_bind. unfold initialize_policy_episode_data at 1, modify at 1.
  rewrite run_bind. unfold modify at 1.
  rewrite run_bind. unfold call_mcts at 1.
  cbn [self rms calls data set_data set_mcts_sampling mcts_game].
  rewrite Hw2.
  cbn [self rms calls data set_data set_mcts_sampling mcts_game
       set_first_mcts set_mcts_game set_master_game].
  destruct (update_estimator test_mode (rms w2) g') as [s5 g5].
  rewrite run_bind. unfold gets at 1. rewrite run_bind. unfold lift at 1.
  cbn [self]. change (master_game (set_mcts_game g5 _)) with primary.
  match goal with
  | |- context [(Raised _, ?w0)] => exists w0
  end.
  split.
  - rewrite (run_bind (lift _)). unfold lift.
    destruct (process_trajectory_lengths primary max_steps) as [segs|e];
      [|reflexivity].
    apply (bind_assoc_run (rollouts 0 segs)).
  - cbn [self calls master_game len_segment sampling_step mcts_sampling data
         set_mcts_game].
    rewrite Hc2, <- !app_assoc. repeat split; reflexivity.
Qed.




(** The calls of a search step before its rollouts start none. *)
Lemma play_open_prefix (test_mode : bool) (max_steps : Z) (b : bool)
    (ob ret : positive) :
  let pre := [UpdateEstimator Master test_mode; ResetGame Master;
              InitializeEpisodeData Master; RunTrajectory max_steps]
             ++ (if b then [RebindStats ob ret] else [])
             ++ [UpdateEstimator Mcts test_mode] in
  horizons_of pre = [] /\ init_indices pre = [].
Proof. destruct b; split; reflexivity. Qed.

Lemma cleared_all (d : gmap string (pyval elt)) (name : string) :
  name ∈ episode_attrs ++ policy_attrs ->
  clear_attrs policy_attrs (clear_attrs episode_attrs d) !! name
  = Some (PyList []).
Proof.
  intros Hn. rewrite !clear_attrs_lookup.
  case_decide; [reflexivity|]. apply elem_of_app in Hn as [Hn | Hn].
  - by rewrite decide_True by exact Hn.
  - contradiction.
Qed.





(** X16. A search step on an empty primary rollout: on a [play] call at
    which search is eligible and the gate open, when the primary rollout
    recorded no step (as with [max_steps] 0), the call raises IndexError at
    the planner: the object is left in search mode with all seventeen data
    attributes emptied, no search rollout started, and the step counter not
    advanced. *)
Theorem play_empty_rollout (w : world) (max_steps : Z) (test_mode : bool) :
  mcts_sample_enable (self w) = true ->
  phase_of (self w) = Returned 0 ->
  let primary :=
    master_game (self (exec (run_primary max_steps test_mode) w)) in
  trajectory_dones primary = [] ->
  exists w',
    play max_steps test_mode w = (Raised IndexError, w')
    /\ (forall name, name ∈ episode_attrs ++ policy_attrs ->
        data (self w') !! name = Some (PyList []))
    /\ mcts_sampling (self w') = true
    /\ sampling_step (self w') = sampling_step (self w)
    /\ init_indices (new_calls (play max_steps test_mode) w) = [].
Proof.
  intros He Hp primary Hdones.
  destruct (play_gate_open w max_steps test_mode He Hp)
    as (w5 & Hplay & _ & _ & Hs5 & Hm5 & Hd5 & Hc5).
  fold primary in Hplay, Hc5.
  assert (Hrun : play max_steps test_mode w = (Raised IndexError, w5)).
  { rewrite Hplay. rewrite run_bind. unfold lift at 1.
    destruct (process_trajectory_lengths_raises primary max_steps) as [_ Hr].
    rewrite (Hr Hdones). reflexivity. }
  exists w5. split; [exact Hrun|].
  split; [intros name Hn; rewrite Hd5; by apply cleared_all|].
  split; [exact Hm5|]. split; [exact Hs5|].
  unfold new_calls, exec. rewrite Hrun. cbn [snd]. rewrite Hc5.
  rewrite drop_app_length.
  exact (proj2 (play_open_prefix test_mode max_steps (first_mcts (self w))
                  (_ob_rms primary) (_ret_rms primary))).
Qed.

(** ** A search step on a well-formed primary rollout *)














(** ** The exceptions of [play], and the attributes it relies on *)


























(** ** Up to the first eligible call *)

(** While no call was eligible, every call returned: the step counter is
    the number of calls made, and the schedule and the guard are as they
    were. *)
Lemma starts_quiet (args : list (Z * bool)) :
  forall (w : world) (k : nat) (wk : world),
  starts args w !! k = Some wk ->
  Forall (fun v => mcts_sample_enable (self v) = false)
         (take k (starts args w)) ->
  sampling_step (self wk) = sampling_step (self w) + Z.of_nat k
  /\ mcts_start_step (self wk) = mcts_start_step (self w)
  /\ mcts_end_step (self wk) = mcts_end_step (self w)
  /\ mcts_enable (self wk) = mcts_enable (self w)
  /\ first_mcts (self wk) = first_mcts (self w).
Proof.
  induction args as [|a args IH]; intros w k wk Hk Hq; [discriminate|].
  cbn [starts] in Hk, Hq. destruct k as [|k].
  - injection Hk as <-. repeat split; lia.
  - cbn [lookup list_lookup] in Hk. cbn [take] in Hq.
    apply Forall_cons in Hq as [He Hq].
    destruct (IH _ k wk Hk Hq) as (Hs & Hst & Hen & Hme & Hf).
    destruct (play_outside_run w a.1 a.2 He) as (d & Hplay & _).
    fold (play_with a) in Hplay.
    unfold exec in Hs, Hst, Hen, Hme, Hf.
    rewrite Hplay in Hs, Hst, Hen, Hme, Hf.
    cbn [snd self sampling_step mcts_start_step mcts_end_step mcts_enable
         first_mcts set_sampling_step set_data set_mcts_sampling
         set_master_game] in Hs, Hst, Hen, Hme, Hf.
    repeat split; first [assumption | lia].
Qed.

(** X21. On an object built by [__init__], as long as no call was
    eligible every call returned and the step counter is the number of
    calls made; so the first eligible call comes at step
    [max(0, mcts_start_step)], with the hand-off still to be made, and
    when [mcts_start_step] is not negative and the frequency is not zero
    its gate is open: the hand-off and the first collection of search data
    fall on the same call. *)
Theorem first_eligible_call (cfg : config) (s0 : store) (w0 : world)
    (args : list (Z * bool)) (k : nat) (w : world) :
  __init__ cfg s0 = Returned w0 ->
  starts args w0 !! k = Some w ->
  Forall (fun v => mcts_sample_enable (self v) = false)
         (take k (starts args w0)) ->
  sampling_step (self w) = Z.of_nat k
  /\ first_mcts (self w) = true
  /\ (mcts_sample_enable (self w) = true ->
      sampling_step (self w) = Z.max 0 (mcts_start_step (self w))
      /\ (0 <= mcts_start_step (self w) ->
          mcts_collect_data_freq (self w) <> 0 ->
          phase_of (self w) = Returned 0)).
Proof.
  intros Hinit Hk Hq.
  destruct (init_returned cfg s0 w0 Hinit)
    as (x & y & a & b & master & mcts & _ & _ & _ & _ & Hself & _).
  destruct (starts_quiet args w0 k w Hk Hq) as (Hs & Hst & Hen & Hme & Hf).
  rewrite Hself in Hs, Hf. cbn [sampling_step first_mcts] in Hs, Hf.
  split; [lia|]. split; [exact Hf|]. intros He.
  apply mcts_sample_enable_spec in He as (Hon & Hlo & Hhi).
  assert (Hstep : sampling_step (self w) = Z.max 0 (mcts_start_step (self w))).
  { destruct k as [|k]; [lia|].
    assert (Hprev : exists wp, starts args w0 !! k = Some wp).
    { apply lookup_lt_is_Some. apply lookup_lt_Some in Hk. lia. }
    destruct Hprev as [wp Hp].
    assert (Hqp : mcts_sample_enable (self wp) = false).
    { apply (proj1 (Forall_lookup _ _) Hq k wp).
      rewrite lookup_take_lt by lia. exact Hp. }
    destruct (starts_quiet args w0 k wp Hp)
      as (Hsp & Hstp & Henp & Hmep & _).
    { replace k with (k `min` S k)%nat by lia. rewrite <- take_take.
      by apply Forall_take. }
    rewrite Hself in Hsp. cbn [sampling_step] in Hsp.
    destruct (mcts_sample_enable (self wp)) eqn:Hel; [discriminate|].
    assert (Hnot : ~ (mcts_enable (self wp) = true
                      /\ mcts_start_step (self wp) <= sampling_step (self wp)
                         < mcts_end_step (self wp))).
    { intros Hyes. apply mcts_sample_enable_spec in Hyes. congruence. }
    rewrite Hstp, Henp, Hmep, <- Hst, <- Hen, <- Hme in Hnot.
    assert (Hout : ~ (mcts_start_step (self w) <= sampling_step (self wp)
                      < mcts_end_step (self w)))
      by (intros Hin; apply Hnot; by split).
    lia. }
  split; [exact Hstep|]. intros H0 Hfreq.
  unfold phase_of, mod_.
  replace (mcts_collect_data_freq (self w) =? 0) with false
    by (symmetry; by apply Z.eqb_neq).
  replace (sampling_step (self w) - mcts_start_step (self w)) with 0 by lia.
  reflexivity.
Qed.

End Properties.

(** ** Examples on the sample source *)

Section Examples.

Import Sample.

Lemma process_trajectory_lengths_spec_witness :
  exists segs,
    process_trajectory_lengths primary10 10 = Returned segs
    /\ segs = [4; 4; 2]
    /\ Forall (fun l => 0 < l) segs /\ sum segs = 10.
Proof.
  destruct (process_trajectory_lengths_spec primary10 10)
    as (segs & Hrun & _ & Htail & _ & Hsum).
  - discriminate.
  - reflexivity.
  - exists segs. split; [exact Hrun|]. split.
    + apply Htail; [reflexivity | discriminate].
    + apply Hsum.
      * repeat constructor; simpl; lia.
      * vm_compute. discriminate.
      * split; intros E; vm_compute in E; discriminate.
Defined.

(** After one policy-sampling step, the copy of the primary buffer. *)
Lemma aggregate_mcts_data_copies_primary_witness :
  exists d,
    aggregate_mcts_data (after cfg [(10, false)])
    = (Returned tt, with_data d (after cfg [(10, false)]))
    /\ d !! "trajectory_dones"
       = Some (NdArray bool_
                 (PyBool <$> [false; false; false; true; false;
                              false; false; true; false; false])).
Proof.
  destruct (aggregate_mcts_data_copies_primary (after cfg [(10, false)]))
    as (_ & d & Hrun & Hset & _); [reflexivity|].
  exists d. split; [exact Hrun|].
  destruct (Hset "trajectory_dones" bool_) as (v & Hv & Hd).
  - apply (list_elem_of_lookup_2 _ 8%nat). reflexivity.
  - etrans; [exact Hd|]. vm_compute in Hv. injection Hv as <-.
    vm_compute. reflexivity.
Defined.




(** The search loop over the segments [4; 4; 2] of a ten-step primary
    rollout starts its rollouts at indices below ten. *)
Lemma rollouts_in_bounds_witness :
  exists w',
    rollouts 0 [4; 4; 2] (after cfg [(10, false)]) = (Returned tt, w')
    /\ Forall (fun i => 0 <= i < 10)
              (init_indices (new_calls (rollouts 0 [4; 4; 2])
                                       (after cfg [(10, false)]))).
Proof.
  destruct (rollouts_in_bounds (after cfg [(10, false)]) 10 [4; 4; 2])
    as (w' & Hrun & Hin).
  - reflexivity.
  - reflexivity.
  - vm_compute. repeat constructor; discriminate.
  - vm_compute. discriminate.
  - split; intros E; vm_compute in E; discriminate.
  - vm_compute. discriminate.
  - apply (bool_decide_unpack _). vm_compute. exact I.
  - reflexivity.
  - exists w'. split; [exact Hrun|].
    eapply Forall_impl; [exact Hin|]. intros i Hi. exact (proj1 Hi).
Defined.

(** The third call on [cfg] (step 2) is eligible with the gate closed. *)
Lemma play_gate_closed_witness :
  exists w',
    play 10 false (after cfg [(10, false); (10, false)]) = (Returned tt, w')
    /\ data (self w') = data (self (after cfg [(10, false); (10, false)]))
    /\ mcts_sampling (self w') = true.
Proof.
  destruct (play_gate_closed (after cfg [(10, false); (10, false)])
                             10 false 1)
    as (w' & Hrun & _ & Hd & Hs & _).
  - vm_compute. reflexivity.
  - vm_compute. reflexivity.
  - discriminate.
  - exists w'. split; [exact Hrun|]. split; [exact Hd|].
    etrans; [exact Hs|]. vm_compute. reflexivity.
Defined.

(** C2, the claim as stated fails: the third call on [cfg] returns, and
    after it the policy attributes still hold the second call's primary
    rollout, not the third's. *)
Lemma policy_dataset_stale :
  let w := after cfg [(10, false); (10, false)] in
  let w' := exec (play 10 false) w in
  play 10 false w = (Returned tt, w')
  /\ mcts_sample_enable (self w) = true
  /\ phase_of (self w) = Returned 1
  /\ trajectory_values (master_game (self w'))
     = floats [300; 301; 302; 303; 304; 305; 306; 307; 308; 309]
  /\ data (self w') !! "policy_trajectory_values"
     = Some (NdArray float32
               (PyFloat <$> [200; 201; 202; 203; 204; 205; 206; 207; 208;
                             209]))
  /\ ~ policy_refreshed (master_game (self w')) (data (self w')).
Proof.
  cbv zeta.
  split; [apply run_exec; vm_compute; reflexivity|].
  split; [vm_compute; reflexivity|].
  split; [vm_compute; reflexivity|]. split; [vm_compute; reflexivity|].
  split; [vm_compute; reflexivity|].
  intros Href.
  destruct (Href "policy_trajectory_values" float32)
    as (src & v & Hsrc & Hv & Hd).
  - apply (list_elem_of_lookup_2 _ 2%nat). reflexivity.
  - vm_compute in Hsrc. injection Hsrc as <-.
    vm_compute in Hv. injection Hv as <-.
    vm_compute in Hd. discriminate.
Qed.

(** The first call on [cfg] (step 0) is outside the window. *)
Lemma play_policy_dataset_witness :
  data (self (exec (play 10 false) (after cfg [])))
    !! "policy_trajectory_values"
  = Some (NdArray float32
            (PyFloat <$> [100; 101; 102; 103; 104; 105; 106; 107; 108; 109])).
Proof.
  destruct (play_policy_dataset (after cfg [])
              (exec (play 10 false) (after cfg [])) 10 false)
    as (_ & Href & _).
  - apply run_exec. vm_compute. reflexivity.
  - assert (He : mcts_sample_enable (self (after cfg [])) = false)
      by (vm_compute; reflexivity).
    destruct (Href (or_introl He) "policy_trajectory_values" float32)
      as (src & v & Hsrc & Hv & Hd).
    + apply (list_elem_of_lookup_2 _ 2%nat). reflexivity.
    + etrans; [exact Hd|].
      vm_compute in Hsrc. injection Hsrc as <-.
      vm_compute in Hv. injection Hv as <-.
      vm_compute. reflexivity.
Defined.

(** A construction that returns built the world [after c []]. *)
Lemma init_after (c : config) :
  returns (__init__ c ∅) = true -> __init__ c ∅ = Returned (after c []).
Proof.
  unfold after, built, run_plays. cbn [foldl].
  destruct (__init__ c ∅); [reflexivity | discriminate].
Qed.

(** C6, the claim as stated fails: with a start fraction of 0.25 and seven
    iterations the product is 1.75, which rounds to 2, and
    [mcts_start_step] is 1. *)
Lemma start_step_truncated :
  exists w0 x,
    __init__ cfg_fractional ∅ = Returned w0
    /\ float_mul_int (cfg_mcts_start_step_frac cfg_fractional)
                     (cfg_num_iterations cfg_fractional) = Returned x
    /\ round_ x = Returned 2
    /\ mcts_start_step (self w0) = 1.
Proof.
  exists (after cfg_fractional []), 1.75%float.
  split; [apply init_after; vm_compute; reflexivity|].
  split; [vm_compute; reflexivity|].
  split; vm_compute; reflexivity.
Qed.

(** On [cfg] the window is steps 1 to 6; after the first call the step
    counter is 1 and search is eligible. *)
Lemma eligibility_window_witness :
  exists x y,
    float_mul_int 0.125 8 = Returned x
    /\ int_of_float x = Returned 1
    /\ float_mul_int 0.875 8 = Returned y
    /\ int_of_float y = Returned 7
    /\ mcts_sample_enable (self (exec (play 10 false) (after cfg []))) = true.
Proof.
  destruct (eligibility_window cfg ∅ (after cfg [])
              (exec (play 10 false) (after cfg [])))
    as (x & y & Hx & Ha & Hy & Hb & Hiff).
  - apply init_after. vm_compute. reflexivity.
  - apply plays_more, plays_none.
  - exists x, y. split; [exact Hx|].
    split; [etrans; [exact Ha|]; vm_compute; reflexivity|].
    split; [exact Hy|].
    split; [etrans; [exact Hb|]; vm_compute; reflexivity|].
    apply Hiff. split; [reflexivity|].
    split; vm_compute; [discriminate | reflexivity].
Defined.


(** C9, the claim as stated fails: construction returns with the start
    fraction above the end fraction and [len_segment] 0. *)
Lemma init_accepts_reversed :
  (cfg_mcts_end_step_frac cfg_reversed
   <=? cfg_mcts_start_step_frac cfg_reversed)%float = true
  /\ cfg_len_segment cfg_reversed <= 0
  /\ exists w0, __init__ cfg_reversed ∅ = Returned w0.
Proof.
  split; [vm_compute; reflexivity|]. split; [vm_compute; discriminate|].
  exists (after cfg_reversed []). apply init_after. vm_compute. reflexivity.
Qed.

Lemma init_checks_nothing_witness :
  exists w0,
    __init__ cfg_reversed ∅ = Returned w0
    /\ len_segment (self w0) = 0
    /\ mcts_start_step (self w0) = 7
    /\ mcts_end_step (self w0) = 1
    /\ mcts_sample_enable (self (exec (play 10 false) w0)) = false.
Proof.
  destruct (init_checks_nothing cfg_reversed ∅ 7%float 1%float 7 1)
    as (w0 & Hinit & Hlen & Hs & He & Hnever).
  - vm_compute. reflexivity.
  - vm_compute. reflexivity.
  - vm_compute. reflexivity.
  - vm_compute. reflexivity.
  - intros s. eexists. unfold MCTSEnv_new, source, new. reflexivity.
  - discriminate.
  - exists w0. split; [exact Hinit|]. split; [exact Hlen|].
    split; [exact Hs|]. split; [exact He|].
    apply Hnever; [lia|]. apply plays_more, plays_none.
Defined.

(** *** Further examples *)

(** A ten-step buffer read with a budget of five steps: the last length is
    negative, and the lengths still sum to the budget. *)
Lemma process_trajectory_lengths_unchecked_witness :
  process_trajectory_lengths primary10 5 = Returned [4; 4; -3]
  /\ sum [4; 4; -3] = 5
  /\ last [4; 4; -3] = Some (5 - sum [4; 4]).
Proof.
  destruct (process_trajectory_lengths_unchecked primary10 5 [4; 4; -3])
    as [_ Hret].
  split; [reflexivity|].
  destruct Hret as [_ Hopen]; [reflexivity|]. apply Hopen. reflexivity.
Defined.


Lemma aggregate_mcts_data_idempotent_witness :
  exec aggregate_mcts_data (exec aggregate_mcts_data (after cfg [(10, false)]))
  = exec aggregate_mcts_data (after cfg [(10, false)]).
Proof. apply aggregate_mcts_data_idempotent. vm_compute. reflexivity. Defined.

(** Two search buffers, of two steps and of one: three rows. *)
Lemma aggregate_after_counts_witness :
  exists w' new,
    aggregate_after [search1; search2] searching = (Returned tt, w')
    /\ data (self w') !! "trajectory_values" = Some new
    /\ len new = 3.
Proof.
  destruct (aggregate_after_counts [search1; search2] searching)
    as (w' & Hrun & Hlen).
  - reflexivity.
  - apply (bool_decide_unpack _). vm_compute. exact I.
  - destruct (Hlen "trajectory_values") as (old & new & Hold & Hnew & Hl).
    + apply (list_elem_of_lookup_2 _ 2%nat). reflexivity.
    + exists w', new. split; [exact Hrun|]. split; [exact Hnew|].
      etrans; [exact Hl|]. vm_compute in Hold. injection Hold as <-.
      vm_compute. reflexivity.
Defined.

Lemma init_update_rms_needs_dir_witness :
  returns (__init__ cfg_update_rms ∅) = false.
Proof. apply init_update_rms_needs_dir; reflexivity. Defined.

(** The first call on [cfg] (step 0) is outside the window. *)
Lemma play_outside_window_witness :
  exists w',
    play 10 false (after cfg []) = (Returned tt, w')
    /\ mcts_sampling (self w') = false
    /\ sampling_step (self w') = 1
    /\ data (self w') !! "trajectory_per_episode_lengths"
       = Some (NdArray float32 [PyFloat 4; PyFloat 4]).
Proof.
  destruct (play_outside_window (after cfg []) 10 false)
    as (w' & Hrun & _ & Hm & Hs & Hd & _).
  - vm_compute. reflexivity.
  - exists w'. split; [exact Hrun|]. split; [exact Hm|].
    split; [etrans; [exact Hs|]; vm_compute; reflexivity|].
    destruct (Hd "trajectory_per_episode_lengths" float32) as (v & Hv & Hdv).
    + apply (list_elem_of_lookup_2 _ 7%nat). reflexivity.
    + etrans; [exact Hdv|]. vm_compute in Hv. injection Hv as <-.
      vm_compute. reflexivity.
Defined.

Lemma play_outside_leaves_search_witness :
  new_calls (play 10 false) (after cfg [])
  = [UpdateEstimator Master false; ResetGame Master;
     InitializeEpisodeData Master; RunTrajectory 10]
  /\ first_mcts (self (exec (play 10 false) (after cfg []))) = true.
Proof.
  destruct (play_outside_leaves_search (after cfg []) 10 false)
    as (Hc & _ & Hf).
  - vm_compute. reflexivity.
  - split; [exact Hc|]. etrans; [exact Hf|]. vm_compute. reflexivity.
Defined.

(** On [cfg_reversed] the window ends at step 1: after the first call
    search is not eligible, nor after the next. *)
Lemma search_window_closes_witness :
  mcts_sample_enable
    (self (exec (play 10 false) (after cfg_reversed [(10, false)]))) = false.
Proof.
  destruct (search_window_closes
              (after cfg_reversed [(10, false)])
              (exec (play 10 false) (after cfg_reversed [(10, false)])))
    as [_ Hoff].
  - apply plays_more, plays_none.
  - left. vm_compute. discriminate.
  - exact Hoff.
Defined.

(** With a frequency of zero the second call (step 1, eligible) raises,
    and so does the call after it. *)
Lemma play_zero_frequency_witness :
  exists w',
    play 10 false (exec (play 10 false) (after (cfg_with 3 0) [(10, false)]))
    = (Raised ZeroDivisionError, w')
    /\ sampling_step (self w') = 1.
Proof.
  destruct (play_zero_frequency
              (after (cfg_with 3 0) [(10, false)])
              (exec (play 10 false) (after (cfg_with 3 0) [(10, false)]))
              10 false)
    as (w' & Hrun & _ & Hs & _).
  - vm_compute. reflexivity.
  - vm_compute. reflexivity.
  - apply plays_more, plays_none.
  - exists w'. split; [exact Hrun|]. etrans; [exact Hs|].
    vm_compute. reflexivity.
Defined.



(** A primary rollout of no step at the second call on [cfg]. *)
Lemma play_empty_rollout_witness :
  exists w',
    play 0 false (after cfg [(10, false)]) = (Raised IndexError, w')
    /\ sampling_step (self w') = 1.
Proof.
  destruct (play_empty_rollout (after cfg [(10, false)]) 0 false)
    as (w' & Hrun & _ & _ & Hs & _).
  - vm_compute. reflexivity.
  - vm_compute. reflexivity.
  - vm_compute. reflexivity.
  - exists w'. split; [exact Hrun|]. etrans; [exact Hs|].
    vm_compute. reflexivity.
Defined.






(** On [cfg] the second call (step 1) is the first eligible one. *)
Lemma first_eligible_call_witness :
  let w := exec (play_with (10, false)) (after cfg []) in
  sampling_step (self w) = 1
  /\ phase_of (self w) = Returned 0.
Proof.
  intros w.
  destruct (first_eligible_call cfg ∅ (after cfg [])
              [(10, false); (10, false)] 1 w)
    as (Hs & _ & He).
  - apply init_after. vm_compute. reflexivity.
  - reflexivity.
  - repeat constructor.
  - split; [exact Hs|]. apply He.
    + vm_compute. reflexivity.
    + vm_compute. discriminate.
    + vm_compute. discriminate.
Defined.

End Examples.
